(** * Shallow embedding of the attendance session engine and the
    role / permission / organization access-control model of mana-hr-backend.

    Sources embedded:
    - src/src/middlewares/organizationCode.ts   (extractOrganizationCode,
      optionalOrganizationCode)
    - src/src/models/Attendance.ts, Role.ts, User.ts (schemas: setters,
      validators, pre-save hook)
    - src/src/services/DashboardService.ts      (AttendanceService)
    - src/src/services/DocumentService.ts       (RoleService)
    - src/src/services/UserService.ts           (getUsersAboveRole)

    Modelling conventions.
    - JS strings are [string]s whose characters are read as the Latin-1
      range of UTF-16 code units.
    - Dates are [Z] milliseconds since the epoch ([getTime()]); the hour
      counts computed from them are JS numbers, IEEE 754 binary64 values
      ([spec_float] of the Standard Library with [prec = 53] and
      [emax = 1024]); other JS numbers (counts, levels) are [Z] or [nat].
    - Mongo documents are records; a collection is a list in natural
      (insertion) order, so [findOne] is the first match.
    - Each service call is a function [db -> (result * db)]: a thrown error
      returns the database as it was at the throw. *)

From Stdlib Require Import String Ascii List ZArith QArith Qround Bool Lia Permutation Sorting.
From Stdlib Require Import SpecFloat.
Import ListNotations.
Open Scope string_scope.

(* ------------------------------------------------------------------ *)
(** ** JS string primitives *)

Module Js.
Local Open Scope nat_scope.

(** Characters removed by [String.prototype.trim] in the Latin-1 range:
    TAB, LF, VT, FF, CR, SPACE and NO-BREAK SPACE. *)
Definition is_space (c : ascii) : bool :=
  let n := nat_of_ascii c in
  ((9 <=? n) && (n <=? 13)) || (n =? 32) || (n =? 160).

Fixpoint drop_spaces (l : list ascii) : list ascii :=
  match l with
  | [] => []
  | c :: r => if is_space c then drop_spaces r else l
  end.

(** [s.trim()] *)
Definition trim (s : string) : string :=
  string_of_list_ascii
    (rev (drop_spaces (rev (drop_spaces (list_ascii_of_string s))))).

(** Upper-casing of one Latin-1 code unit: a-z and the accented lower-case
    letters move down by 32, sharp s becomes "SS".  The two code units whose
    upper case lies outside Latin-1 (micro sign, y with diaeresis) are left
    as they are: their images are not in [A-Z0-9] either. *)
Definition upper_char (c : ascii) : list ascii :=
  let n := nat_of_ascii c in
  if (97 <=? n) && (n <=? 122) then [ascii_of_nat (n - 32)]
  else if n =? 223 then ["S"%char; "S"%char]
  else if (224 <=? n) && (n <=? 254) && negb (n =? 247) then [ascii_of_nat (n - 32)]
  else [c].

(** [s.toUpperCase()] *)
Definition toUpperCase (s : string) : string :=
  string_of_list_ascii (flat_map upper_char (list_ascii_of_string s)).

(** JS truthiness of an optional string ([undefined] and [""] are falsy). *)
Definition str_truthy (o : option string) : bool :=
  match o with
  | None => false
  | Some s => negb (String.eqb s "")
  end.

(** [a || b] on optional strings. *)
Definition or_str (a b : option string) : option string :=
  if str_truthy a then a else b.

(** A JSON / query-string value as read from [req.body] or [req.query]. *)
Inductive value : Type :=
| Undefined
| Null
| Bool (b : bool)
| Num (n : Z)
| Str (s : string)
| Arr          (* an array (e.g. a repeated query parameter) *)
| Obj.

Definition truthy (v : value) : bool :=
  match v with
  | Undefined | Null => false
  | Bool b => b
  | Num n => negb (Z.eqb n 0%Z)
  | Str s => negb (String.eqb s "")
  | Arr | Obj => true
  end.

(** The decimal digits of a [Decimal.uint]. *)
Fixpoint uint_text (d : Decimal.uint) : string :=
  match d with
  | Decimal.Nil => EmptyString
  | Decimal.D0 d => String "0" (uint_text d)
  | Decimal.D1 d => String "1" (uint_text d)
  | Decimal.D2 d => String "2" (uint_text d)
  | Decimal.D3 d => String "3" (uint_text d)
  | Decimal.D4 d => String "4" (uint_text d)
  | Decimal.D5 d => String "5" (uint_text d)
  | Decimal.D6 d => String "6" (uint_text d)
  | Decimal.D7 d => String "7" (uint_text d)
  | Decimal.D8 d => String "8" (uint_text d)
  | Decimal.D9 d => String "9" (uint_text d)
  end.

(** [`${n}`] for a count [n]: its decimal form without leading zeros. *)
Definition number_text (n : nat) : string := uint_text (Nat.to_uint n).

End Js.

(** Mongoose casting of a query value or assigned value for a path declared
    with [trim: true, uppercase: true] (Role and User [organizationCode]). *)
Definition cast_org (s : string) : string := Js.toUpperCase (Js.trim s).

(* ------------------------------------------------------------------ *)
(** ** middlewares/organizationCode.ts *)

Module OrgCode.
Local Open Scope nat_scope.

(** [/^[A-Z0-9]{2,10}$/.test(s)] *)
Definition is_upper_alnum (c : ascii) : bool :=
  let n := nat_of_ascii c in
  ((65 <=? n) && (n <=? 90)) || ((48 <=? n) && (n <=? 57)).

Definition org_code_re (s : string) : bool :=
  let l := list_ascii_of_string s in
  (2 <=? length l) && (length l <=? 10) && forallb is_upper_alnum l.

(** The parts of an Express request the middleware reads:
    the [x-organization-code] header (a string or absent),
    [req.body?.organizationCode] and [req.query?.organizationCode]. *)
Record request : Type := mkRequest {
  header_org : option string;
  body_org : Js.value;
  query_org : Js.value
}.

Inductive mw_result : Type :=
| Next (organizationCode : string)      (* req.organizationCode set; next() *)
| SendError (statusCode : Z) (message : string).

Definition msg_required : string :=
  "Organization code is required. Please provide it in X-Organization-Code header, request body, or query parameter.".
Definition msg_format : string :=
  "Invalid organization code format. Must be 2-10 characters, alphanumeric only.".

(** The three assignments to [orgCode] (header, then body, then query). *)
Definition select_org_code (req : request) : Js.value :=
  let orgCode := match header_org req with
                 | Some s => Js.Str s
                 | None => Js.Undefined
                 end in
  let orgCode := if negb (Js.truthy orgCode) && Js.truthy (body_org req)
                 then body_org req else orgCode in
  let orgCode := if negb (Js.truthy orgCode) && Js.truthy (query_org req)
                 then query_org req else orgCode in
  orgCode.

(** [extractOrganizationCode].  The [catch] branch (500) is unreachable:
    [trim] and [toUpperCase] are only called on a string. *)
Definition extractOrganizationCode (req : request) : mw_result :=
  let orgCode := select_org_code req in
  match orgCode with
  | Js.Str s =>
      if negb (Js.truthy orgCode) then SendError 400 msg_required
      else
        let trimmedOrgCode := Js.toUpperCase (Js.trim s) in
        if org_code_re trimmedOrgCode then Next trimmedOrgCode
        else SendError 400 msg_format
  | _ => SendError 400 msg_required
  end.

(** Modelled from the spec's words (§4.2): the code is taken from the
    header, else the body, else the query; a present value that is not a
    string yields no code. *)
Definition spec_source (req : request) : option string :=
  let pick (v : Js.value) := match v with Js.Str s => Some s | _ => None end in
  match header_org req with
  | Some s => if String.eqb s "" then
                if Js.truthy (body_org req) then pick (body_org req)
                else if Js.truthy (query_org req) then pick (query_org req)
                else None
              else Some s
  | None => if Js.truthy (body_org req) then pick (body_org req)
            else if Js.truthy (query_org req) then pick (query_org req)
            else None
  end.

End OrgCode.

Example org_ac : OrgCode.extractOrganizationCode
  (OrgCode.mkRequest (Some "ac") Js.Undefined Js.Undefined) = OrgCode.Next "AC".
Proof. vm_compute. reflexivity. Qed.

(* ------------------------------------------------------------------ *)
(** ** Data model (types/index.ts and the Mongoose schemas) *)

Inductive AttendanceStatus : Type :=
| PRESENT | ABSENT | LATE | HALF_DAY | WORK_FROM_HOME.

Inductive UserStatus : Type :=
| ACTIVE | INACTIVE | SUSPENDED.

Definition UserStatus_eqb (a b : UserStatus) : bool :=
  match a, b with
  | ACTIVE, ACTIVE | INACTIVE, INACTIVE | SUSPENDED, SUSPENDED => true
  | _, _ => false
  end.

(** The fields of a User document read by the embedded code. *)
Module User.
Record t : Type := mk {
  _id : nat;
  email : string;
  fullName : string;
  role : Z;                       (* numeric role level *)
  status : UserStatus;
  organizationCode : string       (* stored trimmed and upper-cased *)
}.
End User.

(* ------------------------------------------------------------------ *)
(** ** JS numbers: IEEE 754 binary64 *)

Module Num.

Definition prec : Z := 53.
Definition emax : Z := 1024.

(** A JS number. *)
Definition t : Type := spec_float.

(** The literal [0]. *)
Definition zero : t := S754_zero false.

(** The number nearest to an integer: a literal, or a [getTime()] value. *)
Definition of_Z (z : Z) : t := binary_normalize prec emax z 0 false.

(** [x + y], [x - y], [x * y], [x / y], each rounded to nearest, ties to even. *)
Definition add (x y : t) : t := SFadd prec emax x y.
Definition sub (x y : t) : t := SFsub prec emax x y.
Definition mul (x y : t) : t := SFmul prec emax x y.
Definition div (x y : t) : t := SFdiv prec emax x y.

(** [x <= y] ([false] when either is NaN). *)
Definition leb (x y : t) : bool := SFleb x y.

Arguments of_Z : simpl never.
Arguments add : simpl never.
Arguments sub : simpl never.
Arguments mul : simpl never.
Arguments div : simpl never.
Arguments leb : simpl never.

(** [2 ^ e] as a rational. *)
Definition pow2 (e : Z) : Q :=
  match e with
  | Zneg p => 1 # (2 ^ p)
  | _ => inject_Z (2 ^ e)
  end.

(** The exact value of a finite number. *)
Definition finite_value (s : bool) (m : positive) (e : Z) : Q :=
  inject_Z (cond_Zopp s (Zpos m)) * pow2 e.

(** [Math.round(x)]: the greatest integer [<= x + 0.5], computed on the
    exact value of [x]; [-0] when [-0.5 <= x < 0]; NaN, the infinities and
    the zeros are returned as they are. *)
Definition math_round (x : t) : t :=
  match x with
  | S754_finite s m e =>
      let k := Qfloor (finite_value s m e + (1 # 2)) in
      if Z.eqb k 0 then S754_zero s else of_Z k
  | _ => x
  end.

End Num.

Module Attendance.
Record t : Type := mk {
  _id : nat;
  employeeId : nat;
  date : Z;
  checkIn : Z;
  checkOut : option Z;
  totalHours : option Num.t;
  status : AttendanceStatus;
  notes : option string;
  isLoggedIn : bool;
  createdBy : nat;
  updatedBy : nat
}.
End Attendance.

(** The fields of a Permission document read by the embedded code
    (module, action and resource are not read by it). *)
Module Permission.
Record t : Type := mk {
  _id : nat;
  name : string
}.
End Permission.

Module Role.
Record t : Type := mk {
  _id : nat;
  name : string;
  displayName : string;
  description : option string;
  permissions : list nat;          (* ObjectIds of Permission documents *)
  isActive : bool;
  isSystemRole : bool;
  level : Z;
  dataAccessLevel : Z;
  organizationCode : string;
  createdBy : option nat;
  updatedBy : option nat
}.
End Role.

(** The database: one list per collection, in natural order. *)
Record db : Type := mkDb {
  users : list User.t;
  attendances : list Attendance.t;
  roles : list Role.t;
  permissions : list Permission.t
}.

(** Errors that reach the callers: [AppError] (middlewares/error.ts),
    [ApiError] (utils/response.ts), the Mongoose [ValidationError] (mapped
    to 400 by [handleValidationError]) and the Mongoose [CastError] of a
    value that does not cast to its path's type (mapped to 400
    "Invalid <path>: <value>" by [handleCastError]). *)
Inductive error : Type :=
| AppError (statusCode : Z) (message : string)
| ApiError (statusCode : Z) (message : string)
| ValidationError (message : string)
| CastError (model path value : string).

Definition status_of (e : error) : Z :=
  match e with
  | AppError c _ | ApiError c _ => c
  | ValidationError _ => 400
  | CastError _ _ _ => 400
  end.

(* ------------------------------------------------------------------ *)
(** ** A state-and-exception monad for the async service methods *)

Definition M (A : Type) : Type := db -> (error + A) * db.

Definition ret {A} (a : A) : M A := fun s => (inr a, s).
Definition throw {A} (e : error) : M A := fun s => (inl e, s).
Definition bind {A B} (m : M A) (k : A -> M B) : M B :=
  fun s => match m s with
           | (inl e, s') => (inl e, s')
           | (inr a, s') => k a s'
           end.
Definition get_db : M db := fun s => (inr s, s).
Definition put_db (s : db) : M unit := fun _ => (inr tt, s).

(** [try { m } catch (error) { throw h(error) }] *)
Definition catch_map {A} (h : error -> error) (m : M A) : M A :=
  fun s => match m s with
           | (inl e, s') => (inl (h e), s')
           | r => r
           end.

Notation "x <- m ;; k" := (bind m (fun x => k))
  (at level 61, m at next level, right associativity).
Notation "m ;;; k" := (bind m (fun _ => k))
  (at level 61, right associativity).

(** Fresh ObjectId: larger than every id in the collection. *)
Definition fresh_id (ids : list nat) : nat := S (fold_right Nat.max 0%nat ids).

(** Replace the document with the given id. *)
Definition replace_by {T} (id_of : T -> nat) (id : nat) (x : T) (l : list T) : list T :=
  map (fun y => if Nat.eqb (id_of y) id then x else y) l.

(* ------------------------------------------------------------------ *)
(** ** models/Attendance.ts and AttendanceService (services/DashboardService.ts) *)

(** [t] is the time value of a valid [Date]: at most 8.64e15 ms away from
    the epoch (ECMAScript TimeClip). *)
Definition time_ok (t : Z) : bool := (Z.abs t <=? 8640000000000000)%Z.

(** [(b.getTime() - a.getTime()) / (1000 * 60 * 60)]: milliseconds to hours,
    in binary64. *)
Definition hours_between (a b : Z) : Num.t :=
  Num.div (Num.sub (Num.of_Z b) (Num.of_Z a))
          (Num.mul (Num.mul (Num.of_Z 1000) (Num.of_Z 60)) (Num.of_Z 60)).

(** [Math.round(h * 100) / 100], in binary64. *)
Definition round2 (h : Num.t) : Num.t :=
  Num.div (Num.math_round (Num.mul h (Num.of_Z 100))) (Num.of_Z 100).

(** Path validators of the attendance schema that the embedded code can
    violate: [notes] maxlength 500 (checked on the trimmed value) and
    [totalHours] min 0. *)
Definition notes_ok (n : option string) : bool :=
  match n with
  | None => true
  | Some s => (String.length s <=? 500)%nat
  end.

Definition totalHours_ok (h : option Num.t) : bool :=
  match h with
  | None => true
  | Some x => Num.leb Num.zero x
  end.

Definition validate_attendance (a : Attendance.t) : option error :=
  if negb (notes_ok (Attendance.notes a))
  then Some (ValidationError "Notes cannot exceed 500 characters")
  else if negb (totalHours_ok (Attendance.totalHours a))
  then Some (ValidationError "Total hours must be positive")
  else None.

(** [attendanceSchema.pre('save')]: recompute [totalHours] when both times
    are present. *)
Definition pre_save_hook (a : Attendance.t) : Attendance.t :=
  match Attendance.checkOut a with
  | Some co =>
      {| Attendance._id := Attendance._id a;
         Attendance.employeeId := Attendance.employeeId a;
         Attendance.date := Attendance.date a;
         Attendance.checkIn := Attendance.checkIn a;
         Attendance.checkOut := Attendance.checkOut a;
         Attendance.totalHours := Some (round2 (hours_between (Attendance.checkIn a) co));
         Attendance.status := Attendance.status a;
         Attendance.notes := Attendance.notes a;
         Attendance.isLoggedIn := Attendance.isLoggedIn a;
         Attendance.createdBy := Attendance.createdBy a;
         Attendance.updatedBy := Attendance.updatedBy a |}
  | None => a
  end.

Definition set_attendances (s : db) (l : list Attendance.t) : db :=
  mkDb (users s) l (roles s) (permissions s).

Definition find_attendance (id : nat) (s : db) : option Attendance.t :=
  find (fun a => Nat.eqb (Attendance._id a) id) (attendances s).

(** [doc.save()]: validation runs first (Mongoose's built-in pre-save
    validation), then the schema's pre-save hook, then the write. *)
Definition save_existing (a : Attendance.t) : M Attendance.t :=
  match validate_attendance a with
  | Some e => throw e
  | None =>
      let a' := pre_save_hook a in
      s <- get_db ;;
      put_db (set_attendances s (replace_by Attendance._id (Attendance._id a') a' (attendances s))) ;;;
      ret a'
  end.

(** [Attendance.create(doc)] *)
Definition create_attendance (a : Attendance.t) : M Attendance.t :=
  match validate_attendance a with
  | Some e => throw e
  | None =>
      let a' := pre_save_hook a in
      s <- get_db ;;
      put_db (set_attendances s (attendances s ++ [a'])) ;;;
      ret a'
  end.

(** Input of [markAttendance] ([MarkAttendanceData]). *)
Module MarkAttendanceData.
Record t : Type := mk {
  employeeId : nat;
  checkIn : Z;
  checkOut : option Z;
  status : option AttendanceStatus;
  notes : option string
}.
End MarkAttendanceData.

(** The update document of the same-day reopen: [notes], [updatedBy],
    [status: PRESENT], [isLoggedIn: true], and [$unset: { checkOut: 1 }] when
    the record has a check-out.  [notes] goes through the [trim] setter. *)
Definition reopen_update (notes : option string) (updatedBy : nat)
    (existingRecord a : Attendance.t) : Attendance.t :=
  {| Attendance._id := Attendance._id a;
     Attendance.employeeId := Attendance.employeeId a;
     Attendance.date := Attendance.date a;
     Attendance.checkIn := Attendance.checkIn a;
     Attendance.checkOut := match Attendance.checkOut existingRecord with
                            | Some _ => None
                            | None => Attendance.checkOut a
                            end;
     Attendance.totalHours := Attendance.totalHours a;
     Attendance.status := PRESENT;
     Attendance.notes := option_map Js.trim notes;
     Attendance.isLoggedIn := true;
     Attendance.createdBy := Attendance.createdBy a;
     Attendance.updatedBy := updatedBy |}.

Section Clock.

(** The server's local calendar: [day_of t] is the local calendar day of
    the timestamp [t]; [midnight d] is the timestamp of local midnight
    starting day [d] ([new Date(y, m, d)]). *)
Variable day_of : Z -> Z.
Variable midnight : Z -> Z.

(** [User.findById] *)
Definition findUserById (id : nat) : M (option User.t) :=
  s <- get_db ;; ret (find (fun u => Nat.eqb (User._id u) id) (users s)).

(** The filter of [getTodayAttendance]: [date] or [checkIn] within the local
    day [startOfDay .. endOfDay] of [date]. *)
Definition today_filter (userId : nat) (date : Z) (a : Attendance.t) : bool :=
  Nat.eqb (Attendance.employeeId a) userId &&
  (Z.eqb (day_of (Attendance.date a)) (day_of date) ||
   Z.eqb (day_of (Attendance.checkIn a)) (day_of date)).

(** [getTodayAttendance(userId, date)]: [findOne] with that filter. *)
Definition getTodayAttendance (userId : nat) (date : Z) : M (option Attendance.t) :=
  s <- get_db ;; ret (find (today_filter userId date) (attendances s)).

(** [Attendance.findByIdAndUpdate(id, update, { new: true, runValidators: true })];
    the update validators check the updated [notes] path. *)
Definition findByIdAndUpdate (id : nat) (f : Attendance.t -> Attendance.t)
    : M (option Attendance.t) :=
  s <- get_db ;;
  match find_attendance id s with
  | None => ret None
  | Some a =>
      let a' := f a in
      if negb (notes_ok (Attendance.notes a'))
      then throw (ValidationError "Notes cannot exceed 500 characters")
      else put_db (set_attendances s (replace_by Attendance._id id a' (attendances s))) ;;;
           ret (Some a')
  end.

Definition markAttendance (attendanceData : MarkAttendanceData.t) (createdBy : nat)
    : M Attendance.t :=
  employee <- findUserById (MarkAttendanceData.employeeId attendanceData) ;;
  match employee with
  | None => throw (AppError 404 "Employee not found")
  | Some _ =>
      let localDate := midnight (day_of (MarkAttendanceData.checkIn attendanceData)) in
      existingRecord <- getTodayAttendance (MarkAttendanceData.employeeId attendanceData) localDate ;;
      match existingRecord with
      | Some r =>
          let notes := Js.or_str (MarkAttendanceData.notes attendanceData) (Attendance.notes r) in
          updatedAttendance <- findByIdAndUpdate (Attendance._id r)
                                 (reopen_update notes createdBy r) ;;
          match updatedAttendance with
          | None => throw (AppError 500 "Failed to update attendance record")
          | Some u => ret u
          end
      | None =>
          s <- get_db ;;
          create_attendance
            {| Attendance._id := fresh_id (map Attendance._id (attendances s));
               Attendance.employeeId := MarkAttendanceData.employeeId attendanceData;
               Attendance.date := localDate;
               Attendance.checkIn := MarkAttendanceData.checkIn attendanceData;
               Attendance.checkOut := MarkAttendanceData.checkOut attendanceData;
               Attendance.totalHours := None;
               Attendance.status := match MarkAttendanceData.status attendanceData with
                                    | Some st => st
                                    | None => PRESENT
                                    end;
               Attendance.notes := option_map Js.trim (MarkAttendanceData.notes attendanceData);
               Attendance.isLoggedIn := true;
               Attendance.createdBy := createdBy;
               Attendance.updatedBy := createdBy |}
      end
  end.

End Clock.

(** The notes written by [markCheckOut] when [notes] is given. *)
Definition checkout_notes (old : option string) (notes : string) : string :=
  if Js.str_truthy old
  then match old with
       | Some o => o ++ " | Checkout: " ++ notes
       | None => "Checkout: " ++ notes
       end
  else "Checkout: " ++ notes.

(** [if (notes) { attendance.notes = ... }], through the [trim] setter. *)
Definition checkout_notes_field (old notes : option string) : option string :=
  match notes with
  | Some n => if Js.str_truthy notes then Some (Js.trim (checkout_notes old n)) else old
  | None => old
  end.

Definition markCheckOut (attendanceId : nat) (checkOutTime : Z) (updatedBy : nat)
    (notes : option string) : M Attendance.t :=
  s <- get_db ;;
  match find_attendance attendanceId s with
  | None => throw (AppError 404 "Attendance record not found")
  | Some attendance =>
      match Attendance.checkOut attendance with
      | Some _ => throw (AppError 400 "Already checked out")
      | None =>
          if Z.leb checkOutTime (Attendance.checkIn attendance)
          then throw (AppError 400 "Check-out time must be after check-in time")
          else
            let sessionHours := hours_between (Attendance.checkIn attendance) checkOutTime in
            save_existing
              {| Attendance._id := Attendance._id attendance;
                 Attendance.employeeId := Attendance.employeeId attendance;
                 Attendance.date := Attendance.date attendance;
                 Attendance.checkIn := Attendance.checkIn attendance;
                 Attendance.checkOut := Some checkOutTime;
                 Attendance.totalHours := Some (round2 sessionHours);
                 Attendance.status := Attendance.status attendance;
                 Attendance.notes := checkout_notes_field (Attendance.notes attendance) notes;
                 Attendance.isLoggedIn := false;
                 Attendance.createdBy := Attendance.createdBy attendance;
                 Attendance.updatedBy := updatedBy |}
      end
  end.

(* ------------------------------------------------------------------ *)
(** ** models/Role.ts and RoleService (services/DocumentService.ts) *)

Module RoleInput.
(** [IRoleCreateInput] *)
Record create : Type := mkCreate {
  name : string;
  displayName : string;
  description : option string;
  level : Z;
  isActive : option bool
}.
(** [IRoleUpdateInput] *)
Record update : Type := mkUpdate {
  u_name : option string;
  u_displayName : option string;
  u_description : option string;
  u_level : option Z;
  u_isActive : option bool
}.
End RoleInput.

(** Path validators of the role schema; [required] on a string rejects [""]. *)
Definition role_name_ok (s : string) : bool :=
  negb (String.eqb s "") && (String.length s <=? 50)%nat.
Definition role_displayName_ok (s : string) : bool :=
  negb (String.eqb s "") && (String.length s <=? 100)%nat.
Definition role_description_ok (d : option string) : bool :=
  match d with None => true | Some s => (String.length s <=? 500)%nat end.
Definition role_level_ok (l : Z) : bool := (1 <=? l)%Z && (l <=? 100)%Z.
Definition role_dataAccessLevel_ok (d : Z) : bool :=
  Z.eqb d 1 || Z.eqb d 2 || Z.eqb d 3.
Definition role_org_ok (s : string) : bool :=
  negb (String.eqb s "") && (String.length s <=? 10)%nat.

Definition validate_role (r : Role.t) : option error :=
  if negb (role_name_ok (Role.name r)) then Some (ValidationError "name")
  else if negb (role_displayName_ok (Role.displayName r)) then Some (ValidationError "displayName")
  else if negb (role_description_ok (Role.description r)) then Some (ValidationError "description")
  else if negb (role_level_ok (Role.level r)) then Some (ValidationError "level")
  else if negb (role_dataAccessLevel_ok (Role.dataAccessLevel r)) then Some (ValidationError "dataAccessLevel")
  else if negb (role_org_ok (Role.organizationCode r)) then Some (ValidationError "organizationCode")
  else None.

Definition set_roles (s : db) (l : list Role.t) : db :=
  mkDb (users s) (attendances s) l (permissions s).

(** A double quote character. *)
Definition dq : string := String (ascii_of_nat 34) EmptyString.

Definition error_message (e : error) : string :=
  match e with
  | AppError _ m | ApiError _ m | ValidationError m => m
  | CastError model path v =>
      "Cast to ObjectId failed for value " ++ dq ++ v ++ dq ++ " (type string) at path " ++
      dq ++ path ++ dq ++ " for model " ++ dq ++ model ++ dq
  end.

(** [Role.findOne({ _id: roleId, organizationCode: organizationCode.toUpperCase() })];
    the query value goes through the path's [trim]/[uppercase] setters. *)
Definition findRoleInOrg (roleId : nat) (organizationCode : string) (s : db) : option Role.t :=
  find (fun r => Nat.eqb (Role._id r) roleId &&
                 String.eqb (Role.organizationCode r) (cast_org (Js.toUpperCase organizationCode)))
       (roles s).

(** [Role.findById(roleId)] *)
Definition findRoleById (roleId : nat) (s : db) : option Role.t :=
  find (fun r => Nat.eqb (Role._id r) roleId) (roles s).

(** [Role.findOne({ name, organizationCode })], [name] through its [trim] setter. *)
Definition findRoleByName (name organizationCode : string) (s : db) : option Role.t :=
  find (fun r => String.eqb (Role.name r) (Js.trim name) &&
                 String.eqb (Role.organizationCode r) (cast_org (Js.toUpperCase organizationCode)))
       (roles s).

(** [role.save()] of a modified existing role. *)
Definition save_role (r : Role.t) : M Role.t :=
  match validate_role r with
  | Some e => throw e
  | None => s <- get_db ;;
            put_db (set_roles s (replace_by Role._id (Role._id r) r (roles s))) ;;;
            ret r
  end.

Definition createRole_catch (e : error) : error :=
  match e with
  | ApiError _ _ => e
  | ValidationError m => ApiError 400 ("Validation failed: " ++ m)
  | AppError _ m => ApiError 500 ("Failed to create role: " ++ m)
  | CastError _ _ _ => ApiError 500 ("Failed to create role: " ++ error_message e)
  end.

(** [RoleService.createRole].  The duplicate-key branch (11000) of the
    [catch] cannot be reached after the [findOne] check in a sequential
    run and is left out. *)
Definition createRole (roleData : RoleInput.create) (organizationCode : string)
    (userId : nat) : M Role.t :=
  catch_map createRole_catch (
    s <- get_db ;;
    match findRoleByName (RoleInput.name roleData) organizationCode s with
    | Some _ => throw (ApiError 400 "Role name already exists in this organization")
    | None =>
        let role :=
          {| Role._id := fresh_id (map Role._id (roles s));
             Role.name := Js.trim (RoleInput.name roleData);
             Role.displayName := Js.trim (RoleInput.displayName roleData);
             Role.description := option_map Js.trim (RoleInput.description roleData);
             Role.permissions := [];
             Role.isActive := match RoleInput.isActive roleData with
                              | Some b => b | None => true end;
             Role.isSystemRole := false;
             Role.level := RoleInput.level roleData;
             Role.dataAccessLevel := 3;
             Role.organizationCode := cast_org (Js.toUpperCase organizationCode);
             Role.createdBy := Some userId;
             Role.updatedBy := Some userId |} in
        match validate_role role with
        | Some e => throw e
        | None => put_db (set_roles s (roles s ++ [role])) ;;; ret role
        end
    end).

Definition rethrow_or_500 (prefix : string) (e : error) : error :=
  match e with
  | ApiError _ _ => e
  | _ => ApiError 500 (prefix ++ error_message e)
  end.

(** [if (error instanceof ApiError) throw error; throw new ApiError(msg, 500)] *)
Definition rethrow_or_500_as (msg : string) (e : error) : error :=
  match e with
  | ApiError _ _ => e
  | _ => ApiError 500 msg
  end.

(** [{ ...updateData, updatedBy: userId }] applied with the setters. *)
Definition apply_role_update (u : RoleInput.update) (userId : nat) (r : Role.t) : Role.t :=
  let pick {A} (o : option A) (d : A) := match o with Some x => x | None => d end in
  {| Role._id := Role._id r;
     Role.name := pick (option_map Js.trim (RoleInput.u_name u)) (Role.name r);
     Role.displayName := pick (option_map Js.trim (RoleInput.u_displayName u)) (Role.displayName r);
     Role.description := match RoleInput.u_description u with
                         | Some d => Some (Js.trim d) | None => Role.description r end;
     Role.permissions := Role.permissions r;
     Role.isActive := pick (RoleInput.u_isActive u) (Role.isActive r);
     Role.isSystemRole := Role.isSystemRole r;
     Role.level := pick (RoleInput.u_level u) (Role.level r);
     Role.dataAccessLevel := Role.dataAccessLevel r;
     Role.organizationCode := Role.organizationCode r;
     Role.createdBy := Role.createdBy r;
     Role.updatedBy := Some userId |}.

(** [RoleService.updateRole] *)
Definition updateRole (roleId : nat) (updateData : RoleInput.update)
    (organizationCode : string) (userId : nat) : M Role.t :=
  catch_map (rethrow_or_500 "Failed to update role: ") (
    s <- get_db ;;
    match findRoleInOrg roleId organizationCode s with
    | None => throw (ApiError 404 "Role not found")
    | Some role =>
        if Role.isSystemRole role
        then throw (ApiError 403 "Cannot update system role")
        else
          let dup :=
            match RoleInput.u_name updateData with
            | Some n =>
                if Js.str_truthy (Some n) && negb (String.eqb n (Role.name role))
                then find (fun r => String.eqb (Role.name r) (Js.trim n) &&
                                    String.eqb (Role.organizationCode r)
                                               (cast_org (Js.toUpperCase organizationCode)) &&
                                    negb (Nat.eqb (Role._id r) roleId)) (roles s)
                else None
            | None => None
            end in
          match dup with
          | Some _ => throw (ApiError 400 "Role name already exists in this organization")
          | None =>
              (* [findByIdAndUpdate(roleId, ...)]: the role was just found,
                 so the [None] branch is not taken in a sequential run *)
              match findRoleById roleId s with
              | None => ret role
              | Some cur =>
                  let updated := apply_role_update updateData userId cur in
                  match validate_role updated with
                  | Some e => throw e
                  | None =>
                      put_db (set_roles s (replace_by Role._id roleId updated (roles s))) ;;;
                      ret updated
                  end
              end
          end
    end).

(** [User.countDocuments({ role: role.level, organizationCode })] *)
Definition count_users_with_level (level : Z) (organizationCode : string) (s : db) : nat :=
  length (filter (fun u => Z.eqb (User.role u) level &&
                           String.eqb (User.organizationCode u)
                                      (cast_org (Js.toUpperCase organizationCode)))
                 (users s)).

Fixpoint remove_first_role (roleId : nat) (l : list Role.t) : list Role.t :=
  match l with
  | [] => []
  | r :: rest => if Nat.eqb (Role._id r) roleId then rest else r :: remove_first_role roleId rest
  end.

(** [Role.findByIdAndDelete(roleId)] *)
Definition delete_role_by_id (roleId : nat) (l : list Role.t) : list Role.t :=
  remove_first_role roleId l.

(** [RoleService.deleteRole]; the error message interpolates [userCount]. *)
Definition deleteRole (roleId : nat) (organizationCode : string) : M unit :=
  catch_map (rethrow_or_500 "Failed to delete role: ") (
    s <- get_db ;;
    match findRoleInOrg roleId organizationCode s with
    | None => throw (ApiError 404 "Role not found")
    | Some role =>
        if Role.isSystemRole role
        then throw (ApiError 403 "Cannot delete system role")
        else
          let userCount := count_users_with_level (Role.level role) organizationCode s in
          if (0 <? userCount)%nat
          then throw (ApiError 400 ("Cannot delete role that is assigned to " ++
                                    Js.number_text userCount ++ " users"))
          else put_db (set_roles s (delete_role_by_id roleId (roles s)))
    end).

Definition mem_nat (x : nat) (l : list nat) : bool := existsb (Nat.eqb x) l.

Definition with_permissions (r : Role.t) (ps : list nat) : Role.t :=
  {| Role._id := Role._id r; Role.name := Role.name r;
     Role.displayName := Role.displayName r; Role.description := Role.description r;
     Role.permissions := ps; Role.isActive := Role.isActive r;
     Role.isSystemRole := Role.isSystemRole r; Role.level := Role.level r;
     Role.dataAccessLevel := Role.dataAccessLevel r;
     Role.organizationCode := Role.organizationCode r;
     Role.createdBy := Role.createdBy r; Role.updatedBy := Role.updatedBy r |}.

(** [RoleService.addPermissions] *)
Definition addPermissions (roleId : nat) (permissionIds : list nat) : M Role.t :=
  catch_map (rethrow_or_500_as "Failed to add permissions") (
    s <- get_db ;;
    match findRoleById roleId s with
    | None => throw (ApiError 404 "Role not found")
    | Some role =>
        if Role.isSystemRole role
        then throw (ApiError 403 "Cannot modify system role permissions")
        else
          let validPermissions :=
            length (filter (fun p => mem_nat (Permission._id p) permissionIds) (permissions s)) in
          if negb (Nat.eqb validPermissions (length permissionIds))
          then throw (ApiError 400 "Some permissions are invalid")
          else
            let newPermissions :=
              filter (fun id => negb (mem_nat id (Role.permissions role))) permissionIds in
            match newPermissions with
            | [] => throw (ApiError 400 "All permissions are already assigned to this role")
            | _ => save_role (with_permissions role (Role.permissions role ++ newPermissions))
            end
    end).

(** [RoleService.removePermissions] *)
Definition removePermissions (roleId : nat) (permissionIds : list nat) : M Role.t :=
  catch_map (rethrow_or_500_as "Failed to remove permissions") (
    s <- get_db ;;
    match findRoleById roleId s with
    | None => throw (ApiError 404 "Role not found")
    | Some role =>
        if Role.isSystemRole role
        then throw (ApiError 403 "Cannot modify system role permissions")
        else save_role (with_permissions role
               (filter (fun p => negb (mem_nat p permissionIds)) (Role.permissions role)))
    end).

(** A [roleId] argument: a well-formed ObjectId, or a string that fails
    the ObjectId cast (Mongoose then throws a [CastError]). *)
Inductive oid_arg : Type :=
| OidValid (id : nat)
| OidMalformed (s : string).

(** [.populate('permissions')]: each id replaced by its document; ids whose
    document is missing are dropped. *)
Definition populate_permissions (s : db) (ids : list nat) : list Permission.t :=
  flat_map (fun id => match find (fun p => Nat.eqb (Permission._id p) id) (permissions s) with
                      | Some p => [p]
                      | None => []
                      end) ids.

(** [RoleService.hasPermission]: the [catch] returns [false], so the
    result is a plain boolean.  Every populated entry is an object. *)
Definition hasPermission (roleId : oid_arg) (permissionName : string) (s : db) : bool :=
  match roleId with
  | OidMalformed _ => false
  | OidValid id =>
      match findRoleById id s with
      | None => false
      | Some role =>
          existsb (fun p => String.eqb (Permission.name p) permissionName)
                  (populate_permissions s (Role.permissions role))
      end
  end.

(** The schema validators passed by the document [createRole] builds from
    [roleData] and [organizationCode]. *)
Definition createRole_input_valid (roleData : RoleInput.create) (organizationCode : string) : bool :=
  role_name_ok (Js.trim (RoleInput.name roleData)) &&
  role_displayName_ok (Js.trim (RoleInput.displayName roleData)) &&
  role_description_ok (option_map Js.trim (RoleInput.description roleData)) &&
  role_level_ok (RoleInput.level roleData) &&
  role_org_ok (cast_org (Js.toUpperCase organizationCode)).

(* ------------------------------------------------------------------ *)
(** ** UserService.getUsersAboveRole (services/UserService.ts) *)

Module UserSummary.
Record t : Type := mk {
  userId : nat;
  email : string;
  fullName : string;
  role : Z
}.
End UserSummary.

(** [.sort({ role: 1, fullName: 1 })] (binary string order). *)
Definition user_le (a b : User.t) : bool :=
  (User.role a <? User.role b)%Z ||
  ((User.role a =? User.role b)%Z &&
   match String.compare (User.fullName a) (User.fullName b) with
   | Gt => false
   | _ => true
   end).

Fixpoint insert_user (u : User.t) (l : list User.t) : list User.t :=
  match l with
  | [] => [u]
  | v :: rest => if user_le u v then u :: l else v :: insert_user u rest
  end.

Fixpoint sort_users (l : list User.t) : list User.t :=
  match l with
  | [] => []
  | u :: rest => insert_user u (sort_users rest)
  end.

(** The filter [{ role: { $lt: role }, organizationCode, status: ACTIVE }];
    [organizationCode] is cast by the path's [trim]/[uppercase] setters. *)
Definition above_role_filter (role : Z) (organizationCode : string) (u : User.t) : bool :=
  (User.role u <? role)%Z &&
  String.eqb (User.organizationCode u) (cast_org organizationCode) &&
  UserStatus_eqb (User.status u) ACTIVE.

Definition summarize (u : User.t) : UserSummary.t :=
  UserSummary.mk (User._id u) (User.email u) (User.fullName u) (User.role u).

Definition getUsersAboveRole (role : Z) (organizationCode : string) : M (list UserSummary.t) :=
  s <- get_db ;;
  ret (map summarize (sort_users (filter (above_role_filter role organizationCode) (users s)))).

(* ------------------------------------------------------------------ *)
(** ** Concrete fixtures *)

Definition sys_role : Role.t :=
  {| Role._id := 1; Role.name := "SUPER_ADMIN"; Role.displayName := "Super Admin";
     Role.description := None; Role.permissions := []; Role.isActive := true;
     Role.isSystemRole := true; Role.level := 1; Role.dataAccessLevel := 1;
     Role.organizationCode := "ACME"; Role.createdBy := None; Role.updatedBy := None |}.

Definition db_sys : db := mkDb [] [] [sys_role] [].

Definition no_update : RoleInput.update := RoleInput.mkUpdate None None None None None.

Definition recruiter50 : RoleInput.create :=
  RoleInput.mkCreate "Recruiter" "Recruiter" None 50 None.
Definition recruiter10 : RoleInput.create :=
  RoleInput.mkCreate "Recruiter" "Recruiter" None 10 None.
Definition db_empty : db := mkDb [] [] [] [].

Definition hr_role : Role.t :=
  {| Role._id := 2; Role.name := "hr"; Role.displayName := "HR";
     Role.description := None; Role.permissions := []; Role.isActive := true;
     Role.isSystemRole := false; Role.level := 3; Role.dataAccessLevel := 2;
     Role.organizationCode := "ACME"; Role.createdBy := None; Role.updatedBy := None |}.
Definition hr_user : User.t := User.mk 5 "hr@acme.test" "Hana" 3 ACTIVE "ACME".
Definition db_hr : db := mkDb [hr_user] [] [hr_role] [].
Definition db_hr_free : db := mkDb [] [] [hr_role] [].

(** The local midnight a clock-in files its record under. *)
Definition today_key (day_of midnight : Z -> Z) (d : MarkAttendanceData.t) : Z :=
  midnight (day_of (MarkAttendanceData.checkIn d)).

Definition id_checkIn (a : Attendance.t) : nat * Z := (Attendance._id a, Attendance.checkIn a).

Definition utc_day_of (t : Z) : Z := (t / 86400000)%Z.
Definition utc_midnight (d : Z) : Z := (d * 86400000)%Z.
Definition hour (n : Z) : Z := (n * 3600000)%Z.
Definition worker : User.t := User.mk 1 "w@acme.test" "Wes" 5 ACTIVE "ACME".
Definition former : User.t := User.mk 2 "f@acme.test" "Fay" 5 INACTIVE "ACME".
Fixpoint repeat_char (n : nat) (c : ascii) : string :=
  match n with O => EmptyString | S k => String c (repeat_char k c) end.
Definition long_notes : string := repeat_char 500 "a".
Definition open_rec : Attendance.t :=
  {| Attendance._id := 1; Attendance.employeeId := 1; Attendance.date := 0;
     Attendance.checkIn := hour 9; Attendance.checkOut := None;
     Attendance.totalHours := None; Attendance.status := PRESENT;
     Attendance.notes := Some long_notes; Attendance.isLoggedIn := true;
     Attendance.createdBy := 1; Attendance.updatedBy := 1 |}.
Definition closed_rec : Attendance.t :=
  {| Attendance._id := 1; Attendance.employeeId := 1; Attendance.date := 0;
     Attendance.checkIn := hour 9; Attendance.checkOut := Some (hour 13);
     Attendance.totalHours := Some (round2 (hours_between (hour 9) (hour 13)));
     Attendance.status := LATE; Attendance.notes := Some "late bus";
     Attendance.isLoggedIn := false;
     Attendance.createdBy := 1; Attendance.updatedBy := 1 |}.
Definition db_open : db := mkDb [worker] [open_rec] [] [].
Definition db_closed : db := mkDb [worker] [closed_rec] [] [].
Definition db_people : db := mkDb [worker; former] [] [] [].
Definition clock_in (employeeId : nat) (t : Z) (notes : option string) : MarkAttendanceData.t :=
  MarkAttendanceData.mk employeeId t None None notes.
Definition result_or (dflt : Attendance.t) (p : (error + Attendance.t) * db) : Attendance.t :=
  match fst p with inr r => r | inl _ => dflt end.
Definition day1_in := markAttendance utc_day_of utc_midnight (clock_in 1 (hour 9) None) 1 db_people.
Definition day1_out := markCheckOut (Attendance._id (result_or open_rec day1_in)) (hour 13) 1 None (snd day1_in).
Definition day1_back := markAttendance utc_day_of utc_midnight (clock_in 1 (hour 14) None) 1 (snd day1_out).

(** ** optionalOrganizationCode (middlewares/organizationCode.ts) *)

(** [optionalOrganizationCode]: [next()] is always called; the result is the
    value [req.organizationCode] is set to, if any.  The [catch] branch is
    unreachable for the same reason as in [extractOrganizationCode]. *)
Definition optionalOrganizationCode (req : OrgCode.request) : option string :=
  let orgCode := OrgCode.select_org_code req in
  match orgCode with
  | Js.Str s =>
      if Js.truthy orgCode then
        let trimmedOrgCode := Js.toUpperCase (Js.trim s) in
        if OrgCode.org_code_re trimmedOrgCode then Some trimmedOrgCode else None
      else None
  | _ => None
  end.

(* ------------------------------------------------------------------ *)
(** ** Sorting of query results *)

(** A [.sort(...)] on a query: insertion by the comparison [le] of the sort
    keys; documents with equal keys keep their natural order. *)
Fixpoint insert_by {T} (le : T -> T -> bool) (x : T) (l : list T) : list T :=
  match l with
  | [] => [x]
  | y :: rest => if le x y then x :: l else y :: insert_by le x rest
  end.

Fixpoint sort_by {T} (le : T -> T -> bool) (l : list T) : list T :=
  match l with
  | [] => []
  | x :: rest => insert_by le x (sort_by le rest)
  end.

(* ------------------------------------------------------------------ *)
(** ** RoleService queries (services/DocumentService.ts) *)

(** [.sort({ level: 1, name: 1 })] *)
Definition role_le (a b : Role.t) : bool :=
  (Role.level a <? Role.level b)%Z ||
  ((Role.level a =? Role.level b)%Z &&
   match String.compare (Role.name a) (Role.name b) with
   | Gt => false
   | _ => true
   end).

(** A role as returned with [.populate('permissions').lean()]. *)
Definition populate_role (s : db) (r : Role.t) : Role.t * list Permission.t :=
  (r, populate_permissions s (Role.permissions r)).

(** The filter of [getAllRoles]: [{ organizationCode: organizationCode.toUpperCase() }],
    plus [isSystemRole: { $ne: true }] when system roles are excluded. *)
Definition all_roles_filter (organizationCode : string) (includeSystemRoles : bool)
    (r : Role.t) : bool :=
  String.eqb (Role.organizationCode r) (cast_org (Js.toUpperCase organizationCode)) &&
  (includeSystemRoles || negb (Role.isSystemRole r)).

(** [RoleService.getAllRoles]; the [catch] (500) is not reached. *)
Definition getAllRoles (organizationCode : string) (includeSystemRoles : bool)
    : M (list (Role.t * list Permission.t)) :=
  s <- get_db ;;
  ret (map (populate_role s)
           (sort_by role_le (filter (all_roles_filter organizationCode includeSystemRoles) (roles s)))).

(** [RoleService.getRoleById]: a malformed id makes [findOne] throw a
    [CastError], which the [catch] turns into a 500. *)
Definition getRoleById (roleId : oid_arg) (organizationCode : string)
    : M (Role.t * list Permission.t) :=
  match roleId with
  | OidMalformed _ => throw (ApiError 500 "Failed to fetch role")
  | OidValid id =>
      s <- get_db ;;
      match findRoleInOrg id organizationCode s with
      | None => throw (ApiError 404 "Role not found")
      | Some role => ret (populate_role s role)
      end
  end.

(** The filter of [getRolesByLevel]: [{ level: { $lte: maxLevel }, isSystemRole: { $ne: true } }]. *)
Definition roles_by_level_filter (maxLevel : Z) (r : Role.t) : bool :=
  (Role.level r <=? maxLevel)%Z && negb (Role.isSystemRole r).

(** [RoleService.getRolesByLevel]; the [catch] (500) is not reached. *)
Definition getRolesByLevel (maxLevel : Z) : M (list (Role.t * list Permission.t)) :=
  s <- get_db ;;
  ret (map (populate_role s) (sort_by role_le (filter (roles_by_level_filter maxLevel) (roles s)))).

(* ------------------------------------------------------------------ *)
(** ** Further AttendanceService operations (services/DashboardService.ts) *)

(** [.sort({ checkIn: 1 })] and [.sort({ checkIn: -1 })] *)
Definition checkIn_asc (a b : Attendance.t) : bool := (Attendance.checkIn a <=? Attendance.checkIn b)%Z.
Definition checkIn_desc (a b : Attendance.t) : bool := (Attendance.checkIn b <=? Attendance.checkIn a)%Z.

Section Queries.

Variable day_of : Z -> Z.

(** [getAllTodayAttendance(userId, date)]: the filter of [getTodayAttendance],
    every match, sorted by [checkIn]. *)
Definition getAllTodayAttendance (userId : nat) (date : Z) : M (list Attendance.t) :=
  s <- get_db ;;
  ret (sort_by checkIn_asc (filter (today_filter day_of userId date) (attendances s))).

(** The loop of [getTotalHoursForDay]: [checkIn] is a [Date], always truthy,
    so a session counts when it has a [checkOut]. *)
Definition add_session_hours (totalHours : Num.t) (attendance : Attendance.t) : Num.t :=
  match Attendance.checkOut attendance with
  | Some co => Num.add totalHours (hours_between (Attendance.checkIn attendance) co)
  | None => totalHours
  end.

Definition getTotalHoursForDay (userId : nat) (date : Z) : M Num.t :=
  todayAttendance <- getAllTodayAttendance userId date ;;
  ret (round2 (fold_left add_session_hours todayAttendance Num.zero)).

(** [getIncompleteSession(userId, date)]: the same day filter plus
    [checkOut: { $exists: false }], the latest [checkIn] first. *)
Definition incomplete_filter (userId : nat) (date : Z) (a : Attendance.t) : bool :=
  today_filter day_of userId date a &&
  match Attendance.checkOut a with None => true | Some _ => false end.

Definition getIncompleteSession (userId : nat) (date : Z) : M (option Attendance.t) :=
  s <- get_db ;;
  ret (head (sort_by checkIn_desc (filter (incomplete_filter userId date) (attendances s)))).

End Queries.

(** The body of [updateAttendance]: the schema paths a request body can
    set ([None]: key absent).  Keys outside the schema are dropped by
    Mongoose's strict mode; [updatedBy] is overwritten by the service. *)
Module AttendancePatch.
Record t : Type := mk {
  employeeId : option nat;
  date : option Z;
  checkIn : option Z;
  checkOut : option Z;
  totalHours : option Num.t;
  status : option string;
  notes : option string;
  isLoggedIn : option bool;
  createdBy : option nat
}.
End AttendancePatch.

(** The [AttendanceStatus] a string names: the values of the schema's
    [enum: Object.values(AttendanceStatus)]. *)
Definition attendanceStatus_of_string (v : string) : option AttendanceStatus :=
  if String.eqb v "present" then Some PRESENT
  else if String.eqb v "absent" then Some ABSENT
  else if String.eqb v "late" then Some LATE
  else if String.eqb v "half_day" then Some HALF_DAY
  else if String.eqb v "work_from_home" then Some WORK_FROM_HOME
  else None.

(** The [enum] validator of [status] on a value the update sets. *)
Definition status_ok (v : option string) : bool :=
  match v with
  | None => true
  | Some x => match attendanceStatus_of_string x with Some _ => true | None => false end
  end.

(** [{ ...updateData, updatedBy }] applied to a record, [notes] through its
    [trim] setter. *)
Definition apply_attendance_patch (p : AttendancePatch.t) (updatedBy : nat)
    (a : Attendance.t) : Attendance.t :=
  let pick {A} (o : option A) (d : A) := match o with Some x => x | None => d end in
  {| Attendance._id := Attendance._id a;
     Attendance.employeeId := pick (AttendancePatch.employeeId p) (Attendance.employeeId a);
     Attendance.date := pick (AttendancePatch.date p) (Attendance.date a);
     Attendance.checkIn := pick (AttendancePatch.checkIn p) (Attendance.checkIn a);
     Attendance.checkOut := match AttendancePatch.checkOut p with
                            | Some co => Some co | None => Attendance.checkOut a end;
     Attendance.totalHours := match AttendancePatch.totalHours p with
                              | Some h => Some h | None => Attendance.totalHours a end;
     Attendance.status := match option_map attendanceStatus_of_string (AttendancePatch.status p) with
                          | Some (Some st) => st | _ => Attendance.status a end;
     Attendance.notes := match AttendancePatch.notes p with
                         | Some n => Some (Js.trim n) | None => Attendance.notes a end;
     Attendance.isLoggedIn := pick (AttendancePatch.isLoggedIn p) (Attendance.isLoggedIn a);
     Attendance.createdBy := pick (AttendancePatch.createdBy p) (Attendance.createdBy a);
     Attendance.updatedBy := updatedBy |}.

(** [runValidators: true]: the update validators run, before the query, on
    the paths the update sets; the error carries the first failing path's
    message. *)
Definition validate_attendance_patch (p : AttendancePatch.t) : option error :=
  if negb (notes_ok (option_map Js.trim (AttendancePatch.notes p)))
  then Some (ValidationError "Notes cannot exceed 500 characters")
  else if negb (totalHours_ok (AttendancePatch.totalHours p))
  then Some (ValidationError "Total hours must be positive")
  else if negb (status_ok (AttendancePatch.status p))
  then Some (ValidationError ("`" ++ match AttendancePatch.status p with Some v => v | None => EmptyString end ++
                              "` is not a valid enum value for path `status`."))
  else None.

(** [AttendanceService.updateAttendance].  The id is [req.params.id]: a
    string that is not an ObjectId fails the cast of the filter, which comes
    before the update validators and the query. *)
Definition updateAttendance (id : oid_arg) (updateData : AttendancePatch.t) (updatedBy : nat)
    : M Attendance.t :=
  match id with
  | OidMalformed v => throw (CastError "Attendance" "_id" v)
  | OidValid id =>
      match validate_attendance_patch updateData with
      | Some e => throw e
      | None =>
          s <- get_db ;;
          match find_attendance id s with
          | None => throw (AppError 404 "Attendance record not found")
          | Some a =>
              let a' := apply_attendance_patch updateData updatedBy a in
              put_db (set_attendances s (replace_by Attendance._id id a' (attendances s))) ;;;
              ret a'
          end
      end
  end.

(** [Attendance.findByIdAndDelete(id)]: removes the first record with that id. *)
Fixpoint remove_first_attendance (id : nat) (l : list Attendance.t) : list Attendance.t :=
  match l with
  | [] => []
  | a :: rest => if Nat.eqb (Attendance._id a) id then rest else a :: remove_first_attendance id rest
  end.

(** [AttendanceService.deleteAttendance]; a malformed id fails the cast. *)
Definition deleteAttendance (id : oid_arg) : M unit :=
  match id with
  | OidMalformed v => throw (CastError "Attendance" "_id" v)
  | OidValid id =>
      s <- get_db ;;
      match find_attendance id s with
      | None => throw (AppError 404 "Attendance record not found")
      | Some _ => put_db (set_attendances s (remove_first_attendance id (attendances s)))
      end
  end.

(** [AttendanceService.getAttendanceById]; a malformed id fails the cast. *)
Definition getAttendanceById (id : oid_arg) : M Attendance.t :=
  match id with
  | OidMalformed v => throw (CastError "Attendance" "_id" v)
  | OidValid id =>
      s <- get_db ;;
      match find_attendance id s with
      | None => throw (AppError 404 "Attendance record not found")
      | Some a => ret a
      end
  end.

(** [try { m } catch (error) { h(error) }] *)
Definition try_catch {A} (m : M A) (h : error -> M A) : M A :=
  fun s => match m s with
           | (inl e, s') => h e s'
           | r => r
           end.

Section Bulk.

Variable day_of : Z -> Z.
Variable midnight : Z -> Z.
(** The string form of an ObjectId, as interpolated in a template string. *)
Variable id_text : nat -> string.

(** The [for ... of] loop of [bulkMarkAttendance]: [results] and [errors]
    as accumulated so far (in push order). *)
Fixpoint bulk_loop (attendanceRecords : list MarkAttendanceData.t) (createdBy : nat)
    (results : list Attendance.t) (errors : list string)
    : M (list Attendance.t * list string) :=
  match attendanceRecords with
  | [] => ret (results, errors)
  | record :: rest =>
      step <- try_catch
                (attendance <- markAttendance day_of midnight record createdBy ;;
                 ret ((results ++ [attendance])%list, errors))
                (fun e => ret (results, (errors ++
                               [("Employee " ++ id_text (MarkAttendanceData.employeeId record) ++
                                 ": " ++ error_message e)%string])%list)) ;;
      bulk_loop rest createdBy (fst step) (snd step)
  end.

(** [AttendanceService.bulkMarkAttendance] *)
Definition bulkMarkAttendance (attendanceRecords : list MarkAttendanceData.t) (createdBy : nat)
    : M (list Attendance.t) :=
  acc <- bulk_loop attendanceRecords createdBy [] [] ;;
  let '(results, errors) := acc in
  if (0 <? length errors)%nat && (length results =? 0)%nat
  then throw (AppError 400 ("Failed to create any attendance records: " ++ String.concat ", " errors))
  else ret results.

End Bulk.

(** Fixtures of the further operations. *)
Definition perm_read : Permission.t := Permission.mk 10 "users:read".
Definition perm_write : Permission.t := Permission.mk 11 "users:write".
Definition db_perm : db := mkDb [] [] [hr_role] [perm_read; perm_write].
Definition hr_role_rw : Role.t := with_permissions hr_role [10%nat; 11%nat].
Definition db_perm_rw : db := mkDb [] [] [hr_role_rw] [perm_read; perm_write].
Definition move_checkOut (t : Z) : AttendancePatch.t :=
  AttendancePatch.mk None None None (Some t) None None None None None.
Definition day1_final := markCheckOut (Attendance._id (result_or open_rec day1_in)) (hour 17) 1 None (snd day1_back).

(* ================================================================== *)
(** * Properties *)

(* ------------------------------------------------------------------ *)
(** ** Binary64 facts: signs and exact integers *)

Module NumFacts.


(** The numbers [>= +0] without NaN: the zeros, the positive finite
    numbers and [+Infinity]. *)
Definition pos_or_zero (x : spec_float) : Prop :=
  match x with
  | S754_zero _ => True
  | S754_finite false _ _ => True
  | S754_infinity false => True
  | _ => False
  end.

Lemma leb_zero_pos (x : spec_float) : pos_or_zero x -> Num.leb Num.zero x = true.
Proof. unfold Num.leb. destruct x as [s|s| |s m e]; try destruct s; simpl; tauto. Qed.

Lemma shr_1_nonneg (mrs : shr_record) : (0 <= shr_m mrs)%Z -> (0 <= shr_m (shr_1 mrs))%Z.
Proof. destruct mrs as [[|[p|p|]|p] r s]; simpl; lia. Qed.

Lemma iter_shr_1_nonneg (p : positive) (mrs : shr_record) :
  (0 <= shr_m mrs)%Z -> (0 <= shr_m (iter_pos shr_1 p mrs))%Z.
Proof.
  revert mrs. induction p as [p IH|p IH|]; intros mrs H; simpl;
    auto using shr_1_nonneg.
Qed.

Lemma shr_fexp_nonneg (m e : Z) (l : location) :
  (0 <= m)%Z -> (0 <= shr_m (fst (shr_fexp Num.prec Num.emax m e l)))%Z.
Proof.
  intros H. unfold shr_fexp, shr.
  assert (H0 : (0 <= shr_m (shr_record_of_loc m l))%Z)
    by (destruct l as [|[| |]]; simpl; exact H).
  destruct (_ - e)%Z; simpl; auto using iter_shr_1_nonneg.
Qed.

Lemma round_nearest_even_nonneg (m : Z) (l : location) :
  (0 <= m)%Z -> (0 <= round_nearest_even m l)%Z.
Proof. destruct l as [|[| |]]; simpl; try destruct (Z.even m); lia. Qed.

Lemma binary_round_aux_pos (m e : Z) (l : location) :
  (0 <= m)%Z -> pos_or_zero (binary_round_aux Num.prec Num.emax false m e l).
Proof.
  intros H. unfold binary_round_aux.
  pose proof (shr_fexp_nonneg m e l H) as H1.
  destruct (shr_fexp Num.prec Num.emax m e l) as [mrs' e'].
  simpl in H1.
  pose proof (shr_fexp_nonneg (round_nearest_even (shr_m mrs') (loc_of_shr_record mrs')) e' loc_Exact
                (round_nearest_even_nonneg _ _ H1)) as H2.
  destruct (shr_fexp _ _ _ e' loc_Exact) as [mrs'' e''].
  simpl in H2. destruct (shr_m mrs''); [exact I| |lia].
  destruct (e'' <=? _)%Z; exact I.
Qed.

Lemma binary_round_pos (p : positive) (e : Z) :
  pos_or_zero (binary_round Num.prec Num.emax false p e).
Proof.
  unfold binary_round. destruct (shl_align _ _ _).
  apply binary_round_aux_pos. lia.
Qed.

Lemma binary_normalize_pos (m e : Z) :
  (0 <= m)%Z -> pos_or_zero (binary_normalize Num.prec Num.emax m e false).
Proof.
  intros H. destruct m as [|p|p]; [exact I|apply binary_round_pos|lia].
Qed.

Lemma of_Z_pos (z : Z) : (0 <= z)%Z -> pos_or_zero (Num.of_Z z).
Proof. apply binary_normalize_pos. Qed.

Lemma mul_pos (x : spec_float) (m : positive) (e : Z) :
  pos_or_zero x -> pos_or_zero (Num.mul x (S754_finite false m e)).
Proof.
  unfold Num.mul.
  destruct x as [s|s| |s mx ex]; try destruct s; simpl; try tauto.
  intros _. apply binary_round_aux_pos. lia.
Qed.

Lemma div_pos (x : spec_float) (m : positive) (e : Z) :
  pos_or_zero x -> pos_or_zero (Num.div x (S754_finite false m e)).
Proof.
  unfold Num.div.
  destruct x as [s|s| |s mx ex]; try destruct s; simpl; try tauto.
  intros _. unfold SFdiv_core_binary.
  set (sh := (ex - e - _)%Z).
  set (m' := match sh with Zpos _ => Z.shiftl (Zpos mx) sh | Z0 => Zpos mx | Zneg _ => 0%Z end).
  assert (Hm : (0 <= m')%Z).
  { unfold m'. destruct sh; [lia| |lia]. apply Z.shiftl_nonneg. lia. }
  assert (Hq : (0 <= fst (Z.div_eucl m' (Zpos m)))%Z).
  { change (fst (Z.div_eucl m' (Zpos m))) with (m' / Zpos m)%Z. apply Z.div_pos; lia. }
  destruct (Z.div_eucl m' (Zpos m)) as [q r]. simpl in Hq.
  apply binary_round_aux_pos. exact Hq.
Qed.

Lemma add_pos (x y : spec_float) :
  pos_or_zero x -> pos_or_zero y -> pos_or_zero (Num.add x y).
Proof.
  unfold Num.add.
  destruct x as [sx|sx| |sx mx ex]; try destruct sx;
  destruct y as [sy|sy| |sy my ey]; try destruct sy; simpl; try tauto.
  intros _ _. apply binary_round_pos.
Qed.

Lemma finite_value_nonneg (m : positive) (e : Z) : 0 <= Num.finite_value false m e.
Proof.
  unfold Num.finite_value, Num.pow2. simpl.
  apply Qmult_le_0_compat; [unfold Qle; simpl; lia|].
  destruct e as [|p|p]; unfold Qle; simpl; try lia.
  all: pose proof (Z.pow_pos_nonneg 2 (Zpos p)); lia.
Qed.

Lemma math_round_pos (x : spec_float) : pos_or_zero x -> pos_or_zero (Num.math_round x).
Proof.
  destruct x as [s|s| |s m e]; try destruct s; simpl; try tauto.
  intros _.
  assert (Hk : (0 <= Qfloor (Num.finite_value false m e + (1 # 2)))%Z).
  { change 0%Z with (Qfloor 0). apply Qfloor_resp_le.
    apply (Qle_trans _ (0 + 0)); [discriminate|].
    apply Qplus_le_compat; [apply finite_value_nonneg|discriminate]. }
  destruct (Z.eqb _ 0); [exact I|]. apply of_Z_pos. exact Hk.
Qed.

Lemma digits2_pos_size (p : positive) : digits2_pos p = Pos.size p.
Proof. induction p as [p IH|p IH|]; simpl; congruence. Qed.

Lemma iter_xO_value (m d : positive) : Zpos (Pos.iter xO m d) = (Zpos m * 2 ^ Zpos d)%Z.
Proof.
  induction d as [|d IH] using Pos.peano_ind; [simpl; lia|].
  rewrite Pos.iter_succ, Pos2Z.inj_xO, IH, Pos2Z.inj_succ, Z.pow_succ_r by lia. lia.
Qed.

Lemma iter_xO_size (m d : positive) : Pos.size (Pos.iter xO m d) = (Pos.size m + d)%positive.
Proof.
  induction d as [|d IH] using Pos.peano_ind; [simpl; lia|].
  rewrite Pos.iter_succ. simpl. rewrite IH. lia.
Qed.

Lemma size_le_53 (p : positive) : (Zpos p < 2 ^ 53)%Z -> (Zpos (Pos.size p) <= 53)%Z.
Proof.
  intros H. pose proof (Pos.size_le p) as Hs. apply Pos2Z.pos_le_pos in Hs.
  rewrite Pos2Z.inj_pow, (Pos2Z.inj_xO p) in Hs.
  destruct (Z.le_gt_cases (Zpos (Pos.size p)) 53) as [|Hgt]; [assumption|].
  assert (H54 : (2 ^ 54 <= 2 ^ Zpos (Pos.size p))%Z) by (apply Z.pow_le_mono_r; lia).
  change (2 ^ 53)%Z with 9007199254740992%Z in H.
  change (2 ^ 54)%Z with 18014398509481984%Z in H54. lia.
Qed.

Lemma binary_round_aux_exact (s : bool) (m : positive) (e : Z) :
  Pos.size m = 53%positive -> (-1074 <= e <= 971)%Z ->
  binary_round_aux Num.prec Num.emax s (Zpos m) e loc_Exact = S754_finite s m e.
Proof.
  intros Hm He. unfold binary_round_aux, shr_fexp. cbn [Zdigits2].
  rewrite digits2_pos_size, Hm.
  replace (fexp Num.prec Num.emax (Zpos 53 + e) - e)%Z with 0%Z
    by (unfold fexp, emin, Num.prec, Num.emax; lia).
  cbn [shr shr_record_of_loc shr_m loc_of_shr_record round_nearest_even Zdigits2].
  rewrite digits2_pos_size, Hm.
  replace (fexp Num.prec Num.emax (Zpos 53 + e) - e)%Z with 0%Z
    by (unfold fexp, emin, Num.prec, Num.emax; lia).
  cbn [shr shr_record_of_loc shr_m].
  replace (e <=? Num.emax - Num.prec)%Z with true
    by (symmetry; apply Z.leb_le; unfold Num.emax, Num.prec; lia).
  reflexivity.
Qed.

Lemma binary_round_exact (s : bool) (m : positive) :
  (Zpos m < 2 ^ 53)%Z ->
  exists m' e', binary_round Num.prec Num.emax s m 0 = S754_finite s m' e' /\
                (e' <= 0)%Z /\ Zpos m' = (Zpos m * 2 ^ (- e'))%Z.
Proof.
  intros Hm. pose proof (size_le_53 m Hm) as Hs.
  unfold binary_round. rewrite digits2_pos_size.
  replace (fexp Num.prec Num.emax (Zpos (Pos.size m) + 0)) with (Zpos (Pos.size m) - 53)%Z
    by (unfold fexp, emin, Num.prec, Num.emax; lia).
  unfold shl_align.
  destruct (Zpos (Pos.size m) - 53 - 0)%Z as [|k|k] eqn:E.
  - exists m, 0%Z. rewrite binary_round_aux_exact by lia.
    split; [reflexivity|]. simpl. lia.
  - lia.
  - exists (Pos.iter xO m k), (Zpos (Pos.size m) - 53)%Z.
    rewrite binary_round_aux_exact.
    + split; [reflexivity|]. split; [lia|].
      rewrite iter_xO_value. f_equal. f_equal. lia.
    + rewrite iter_xO_size. lia.
    + lia.
Qed.

Lemma of_Z_exact (z : Z) :
  (Z.abs z < 2 ^ 53)%Z ->
  (z = 0%Z /\ Num.of_Z z = S754_zero false) \/
  exists s m e, Num.of_Z z = S754_finite s m e /\ (e <= 0)%Z /\
                cond_Zopp s (Zpos m) = (z * 2 ^ (- e))%Z.
Proof.
  intros Hz. destruct z as [|p|p].
  - left. split; reflexivity.
  - right. destruct (binary_round_exact false p) as [m [e [H1 [H2 H3]]]]; [lia|].
    exists false, m, e. split; [exact H1|]. split; [exact H2|]. exact H3.
  - right. destruct (binary_round_exact true p) as [m [e [H1 [H2 H3]]]]; [lia|].
    exists true, m, e. split; [exact H1|]. split; [exact H2|]. unfold cond_Zopp. rewrite H3. change (Zneg p) with (- Zpos p)%Z. ring.
Qed.

Lemma shl_align_fst (mx : positive) (ex ez : Z) :
  (ez <= ex)%Z -> Zpos (fst (shl_align mx ex ez)) = (Zpos mx * 2 ^ (ex - ez))%Z.
Proof.
  intros H. unfold shl_align. destruct (ez - ex)%Z as [|k|k] eqn:E; cbn [fst].
  - replace (ex - ez)%Z with 0%Z by lia. rewrite Z.pow_0_r. lia.
  - lia.
  - rewrite iter_xO_value. f_equal. f_equal. lia.
Qed.

Lemma cond_Zopp_mul (s : bool) (x y : Z) : cond_Zopp s (x * y) = (cond_Zopp s x * y)%Z.
Proof. destruct s; simpl; lia. Qed.

Lemma sub_of_Z_pos (a b : Z) :
  (a <= b)%Z -> (Z.abs a < 2 ^ 53)%Z -> (Z.abs b < 2 ^ 53)%Z ->
  pos_or_zero (Num.sub (Num.of_Z b) (Num.of_Z a)).
Proof.
  intros Hab Ha Hb. unfold Num.sub.
  destruct (of_Z_exact b Hb) as [[Hb0 Eb]|[sb [mb [eb [Eb [Heb Hvb]]]]]];
  destruct (of_Z_exact a Ha) as [[Ha0 Ea]|[sa [ma [ea [Ea [Hea Hva]]]]]];
  rewrite Eb, Ea; cbn [SFsub].
  - exact I.
  - pose proof (Z.pow_pos_nonneg 2 (- ea)).
    destruct sa; simpl in Hva |- *; [exact I|nia].
  - pose proof (Z.pow_pos_nonneg 2 (- eb)).
    destruct sb; simpl in Hvb |- *; [nia|exact I].
  - apply binary_normalize_pos.
    rewrite !shl_align_fst by lia. rewrite !cond_Zopp_mul, Hvb, Hva.
    rewrite <- !Z.mul_assoc, <- !Z.pow_add_r by lia.
    replace (- eb + (eb - Z.min eb ea))%Z with (- Z.min eb ea)%Z by lia.
    replace (- ea + (ea - Z.min eb ea))%Z with (- Z.min eb ea)%Z by lia.
    pose proof (Z.pow_pos_nonneg 2 (- Z.min eb ea)). nia.
Qed.

Lemma ms_per_hour :
  Num.mul (Num.mul (Num.of_Z 1000) (Num.of_Z 60)) (Num.of_Z 60) =
  S754_finite false 7730941132800000 (-31).
Proof. vm_compute. reflexivity. Qed.

Lemma of_Z_100 : Num.of_Z 100 = S754_finite false 7036874417766400 (-46).
Proof. vm_compute. reflexivity. Qed.

Lemma time_ok_bound (t : Z) : time_ok t = true -> (Z.abs t < 2 ^ 53)%Z.
Proof.
  unfold time_ok. intros H. apply Z.leb_le in H.
  change (2 ^ 53)%Z with 9007199254740992%Z. lia.
Qed.

Lemma hours_between_pos (a b : Z) :
  (a <= b)%Z -> time_ok a = true -> time_ok b = true -> pos_or_zero (hours_between a b).
Proof.
  intros Hab Ha Hb. unfold hours_between. rewrite ms_per_hour.
  apply div_pos, sub_of_Z_pos; auto using time_ok_bound.
Qed.

Lemma round2_pos (x : Num.t) : pos_or_zero x -> pos_or_zero (round2 x).
Proof.
  intros H. unfold round2. rewrite of_Z_100.
  apply div_pos, math_round_pos, mul_pos, H.
Qed.

Lemma round2_zero : round2 Num.zero = Num.zero.
Proof. vm_compute. reflexivity. Qed.

End NumFacts.

(* ------------------------------------------------------------------ *)
(** ** Organization code *)

Lemma truthy_str (s : string) : Js.truthy (Js.Str s) = true <-> s <> "".
Proof. simpl. destruct (String.eqb_spec s ""); simpl; split; congruence. Qed.

Lemma select_org_code_spec (req : OrgCode.request) (s : string) :
  (OrgCode.select_org_code req = Js.Str s /\ s <> "") <-> OrgCode.spec_source req = Some s.
Proof.
  destruct req as [h b q]; unfold OrgCode.select_org_code, OrgCode.spec_source; simpl.
  assert (Hpick : forall v, Js.truthy v = true ->
            ((v = Js.Str s /\ s <> "") <-> (match v with Js.Str s0 => Some s0 | _ => None end) = Some s)).
  { intros v Hv; destruct v; simpl; split; intros H; try (destruct H; discriminate); try discriminate.
    - destruct H as [H1 H2]; inversion H1; auto.
    - inversion H; subst. split; auto. apply truthy_str; auto. }
  destruct h as [x|]; [destruct (String.eqb_spec x "") as [->|Hx]|]; simpl.
  - destruct (Js.truthy b) eqn:Hb; simpl; [rewrite Hb; simpl; apply Hpick; auto|].
    destruct (Js.truthy q) eqn:Hq; simpl; [rewrite ?Hq; simpl; apply Hpick; auto|].
    split; [intros [H1 H2]; inversion H1; congruence | discriminate].
  - assert (Js.truthy (Js.Str x) = true) as Ht by (apply truthy_str; auto).
    simpl in Ht; rewrite Ht; simpl; rewrite Ht; simpl.
    split; [intros [H1 H2]; inversion H1; auto | intros H; inversion H; subst; auto].
  - destruct (Js.truthy b) eqn:Hb; simpl; [rewrite Hb; simpl; apply Hpick; auto|].
    destruct (Js.truthy q) eqn:Hq; simpl; [rewrite ?Hq; simpl; apply Hpick; auto|].
    split; [intros [H1 H2]; discriminate | discriminate].
Qed.

(** C5 (corrected).  [extractOrganizationCode] takes the code from the
    header, else the body, else the query (an empty header counts as absent;
    a value that is not a string is rejected); it accepts exactly when the
    code matches [^[A-Z0-9]{2,10}$] after TRIMMING and upper-casing, stores
    that trimmed upper-cased code, and otherwise answers 400. *)
Theorem extractOrganizationCode_trim_upper (req : OrgCode.request) :
  (forall c, OrgCode.extractOrganizationCode req = OrgCode.Next c <->
             exists s, OrgCode.spec_source req = Some s /\
                       OrgCode.org_code_re (cast_org s) = true /\ c = cast_org s) /\
  ((exists c, OrgCode.extractOrganizationCode req = OrgCode.Next c) \/
   (exists m, OrgCode.extractOrganizationCode req = OrgCode.SendError 400 m)).
Proof.
  unfold OrgCode.extractOrganizationCode, cast_org.
  destruct (OrgCode.select_org_code req) eqn:E;
    try (split; [intros c; split; [discriminate|];
                 intros (s & Hs & _); apply select_org_code_spec in Hs;
                 destruct Hs as [Hs _]; congruence
                |right; eexists; reflexivity]).
  destruct (Js.truthy (Js.Str s)) eqn:T; simpl negb; cbv iota.
  - assert (Hsrc : OrgCode.spec_source req = Some s)
      by (apply select_org_code_spec; split; auto; apply truthy_str; auto).
    destruct (OrgCode.org_code_re (Js.toUpperCase (Js.trim s))) eqn:R.
    + split; [|left; eexists; reflexivity].
      intros c; split.
      * intros H; inversion H; subst; exists s; auto.
      * intros (s' & Hs' & _ & ->). rewrite Hsrc in Hs'; inversion Hs'; subst; auto.
    + split; [|right; eexists; reflexivity].
      intros c; split; [discriminate|].
      intros (s' & Hs' & Hr & _). rewrite Hsrc in Hs'; inversion Hs'; subst; congruence.
  - split; [|right; eexists; reflexivity].
    intros c; split; [discriminate|].
    intros (s' & Hs' & _). apply select_org_code_spec in Hs'. destruct Hs' as [H1 H2].
    rewrite E in H1; inversion H1; subst. apply truthy_str in H2. congruence.
Qed.

(** C5 counterexample: the header [" ac "] is accepted as ["AC"] although
    its upper-cased form [" AC "] does not match the pattern. *)
Lemma extractOrganizationCode_padded_code_accepted :
  OrgCode.extractOrganizationCode (OrgCode.mkRequest (Some " ac ") Js.Undefined Js.Undefined)
    = OrgCode.Next "AC" /\
  OrgCode.org_code_re (Js.toUpperCase " ac ") = false.
Proof. vm_compute. split; reflexivity. Qed.

(* ------------------------------------------------------------------ *)
(** ** Permission lookup *)

(** C10.  [hasPermission] returns a boolean on every input (a malformed id
    or a missing role gives [false]), and it is [true] exactly when the role
    exists and its populated permission list has a permission named
    [permissionName]. *)
Theorem hasPermission_iff (roleId : oid_arg) (permissionName : string) (s : db) :
  hasPermission roleId permissionName s = true <->
  exists id role p,
    roleId = OidValid id /\ findRoleById id s = Some role /\
    In p (populate_permissions s (Role.permissions role)) /\
    Permission.name p = permissionName.
Proof.
  unfold hasPermission. destruct roleId as [id|str].
  - destruct (findRoleById id s) as [role|] eqn:F.
    + rewrite existsb_exists. split.
      * intros (p & Hin & Heq). apply String.eqb_eq in Heq.
        exists id, role, p. auto.
      * intros (id' & role' & p & Hid & Hf & Hin & Hn). inversion Hid; subst.
        rewrite F in Hf; inversion Hf; subst.
        exists p; split; auto. apply String.eqb_eq; auto.
    + split; [discriminate|].
      intros (id' & role' & p & Hid & Hf & _). inversion Hid; subst. congruence.
  - split; [discriminate|]. intros (id' & _ & _ & Hid & _). discriminate.
Qed.

(* ------------------------------------------------------------------ *)
(** ** Approval chain *)

Lemma insert_user_perm (u : User.t) (l : list User.t) :
  Permutation (insert_user u l) (u :: l).
Proof.
  induction l as [|v rest IH]; simpl; auto.
  destruct (user_le u v); auto.
  eapply perm_trans; [apply perm_skip, IH|apply perm_swap].
Qed.

Lemma sort_users_perm (l : list User.t) : Permutation (sort_users l) l.
Proof.
  induction l as [|u rest IH]; simpl; auto.
  eapply perm_trans; [apply insert_user_perm|]. apply perm_skip, IH.
Qed.

(** C8.  [getUsersAboveRole role organizationCode] reads without writing
    and returns one entry per user of the organization that is active and
    has [role] strictly below the given value; no returned entry has a role
    greater than or equal to it. *)
Theorem getUsersAboveRole_exact (role : Z) (organizationCode : string) (s : db) :
  exists res,
    getUsersAboveRole role organizationCode s = (inr res, s) /\
    Permutation res (map summarize (filter (above_role_filter role organizationCode) (users s))) /\
    (forall x, In x res <->
       exists u, In u (users s) /\ (User.role u < role)%Z /\
                 User.organizationCode u = cast_org organizationCode /\
                 User.status u = ACTIVE /\ x = summarize u) /\
    (forall x, In x res -> (UserSummary.role x < role)%Z).
Proof.
  set (res := map summarize (sort_users (filter (above_role_filter role organizationCode) (users s)))).
  assert (Hp : Permutation res (map summarize (filter (above_role_filter role organizationCode) (users s))))
    by (apply Permutation_map, sort_users_perm).
  assert (Hin : forall x, In x res <->
       exists u, In u (users s) /\ (User.role u < role)%Z /\
                 User.organizationCode u = cast_org organizationCode /\
                 User.status u = ACTIVE /\ x = summarize u).
  { intros x. split.
    - intros H. apply (Permutation_in _ Hp) in H.
      apply in_map_iff in H as (u & <- & Hu). apply filter_In in Hu as [Hu Hf].
      unfold above_role_filter in Hf. apply andb_prop in Hf as [Hf Hst].
      apply andb_prop in Hf as [Hr Ho].
      exists u. repeat split; auto.
      + apply Z.ltb_lt; auto.
      + apply String.eqb_eq; auto.
      + destruct (User.status u); simpl in Hst; congruence.
    - intros (u & Hu & Hr & Ho & Hst & ->).
      apply (Permutation_in _ (Permutation_sym Hp)).
      apply in_map. apply filter_In. split; auto.
      unfold above_role_filter. rewrite Ho, Hst, String.eqb_refl.
      apply Z.ltb_lt in Hr. rewrite Hr. reflexivity. }
  exists res. split; [reflexivity|]. split; [exact Hp|]. split; [exact Hin|].
  intros y Hy. apply Hin in Hy as (u & _ & Hr & _ & _ & ->). simpl. auto.
Qed.

(* ------------------------------------------------------------------ *)
(** ** Lookups by ObjectId *)

Lemma find_ext_in {T} (g h : T -> bool) (l : list T) :
  (forall x, In x l -> g x = h x) -> find g l = find h l.
Proof.
  induction l as [|a l IH]; simpl; intros H; auto.
  rewrite (H a (or_introl eq_refl)). destruct (h a); auto.
Qed.

Lemma find_id_absent {T} (f : T -> nat) (P : T -> bool) (l : list T) (i : nat) :
  ~ In i (map f l) -> find (fun x => Nat.eqb (f x) i && P x) l = None.
Proof.
  induction l as [|a l IH]; simpl; intros H; auto.
  destruct (Nat.eqb_spec (f a) i); [exfalso; auto|]. simpl. auto.
Qed.

(** With unique ids, a lookup by the id of [r] (and a further condition)
    finds [r] exactly when [r] meets the condition. *)
Lemma find_unique_id {T} (f : T -> nat) (P : T -> bool) (l : list T) (r : T) :
  NoDup (map f l) -> In r l ->
  find (fun x => Nat.eqb (f x) (f r) && P x) l = if P r then Some r else None.
Proof.
  induction l as [|a l IH]; simpl; intros Hnd Hin; [contradiction|].
  inversion Hnd as [|? ? Hnot Hnd']; subst.
  destruct Hin as [<-|Hin].
  - rewrite Nat.eqb_refl; simpl. destruct (P a) eqn:E; auto.
    apply find_id_absent; auto.
  - assert (f a <> f r) as Hne by (intros Heq; apply Hnot; rewrite Heq; apply in_map; auto).
    apply Nat.eqb_neq in Hne. rewrite Hne. simpl. auto.
Qed.

Lemma findRoleById_unique (s : db) (r : Role.t) :
  NoDup (map Role._id (roles s)) -> In r (roles s) ->
  findRoleById (Role._id r) s = Some r.
Proof.
  intros Hnd Hin. unfold findRoleById.
  rewrite (find_ext_in _ (fun x => Nat.eqb (Role._id x) (Role._id r) && (fun _ => true) x)).
  - rewrite find_unique_id; auto.
  - intros x _. rewrite andb_true_r. reflexivity.
Qed.

Lemma findRoleInOrg_unique (s : db) (r : Role.t) (oc : string) :
  NoDup (map Role._id (roles s)) -> In r (roles s) ->
  findRoleInOrg (Role._id r) oc s =
  if String.eqb (Role.organizationCode r) (cast_org (Js.toUpperCase oc)) then Some r else None.
Proof.
  intros Hnd Hin. unfold findRoleInOrg.
  apply (find_unique_id Role._id
           (fun x => String.eqb (Role.organizationCode x) (cast_org (Js.toUpperCase oc)))); auto.
Qed.

(* ------------------------------------------------------------------ *)
(** ** System roles *)

(** C3 (corrected).  For a system role (ids unique in the collection):
    [addPermissions] and [removePermissions], which look the role up by id
    alone, always fail with 403; [updateRole] and [deleteRole], which look
    it up within the caller's organization code, fail with 403 when the role
    belongs to that organization and with 404 otherwise.  The database is
    unchanged in every case. *)
Theorem system_role_immutable (s : db) (r : Role.t)
    (Hnd : NoDup (map Role._id (roles s))) (Hin : In r (roles s))
    (Hsys : Role.isSystemRole r = true) :
  (forall permissionIds, exists m,
     addPermissions (Role._id r) permissionIds s = (inl (ApiError 403 m), s)) /\
  (forall permissionIds, exists m,
     removePermissions (Role._id r) permissionIds s = (inl (ApiError 403 m), s)) /\
  (forall updateData organizationCode userId, exists m,
     updateRole (Role._id r) updateData organizationCode userId s =
       (inl (ApiError (if String.eqb (Role.organizationCode r)
                                    (cast_org (Js.toUpperCase organizationCode))
                       then 403 else 404) m), s)) /\
  (forall organizationCode, exists m,
     deleteRole (Role._id r) organizationCode s =
       (inl (ApiError (if String.eqb (Role.organizationCode r)
                                    (cast_org (Js.toUpperCase organizationCode))
                       then 403 else 404) m), s)).
Proof.
  pose proof (findRoleById_unique s r Hnd Hin) as Hid.
  split; [|split; [|split]].
  - intros ps. unfold addPermissions, catch_map, bind, get_db. simpl.
    rewrite Hid, Hsys. eexists; reflexivity.
  - intros ps. unfold removePermissions, catch_map, bind, get_db. simpl.
    rewrite Hid, Hsys. eexists; reflexivity.
  - intros u oc uid. unfold updateRole, catch_map, bind, get_db. simpl.
    rewrite findRoleInOrg_unique; auto.
    destruct (String.eqb _ _); [rewrite Hsys|]; eexists; reflexivity.
  - intros oc. unfold deleteRole, catch_map, bind, get_db. simpl.
    rewrite findRoleInOrg_unique; auto.
    destruct (String.eqb _ _); [rewrite Hsys|]; eexists; reflexivity.
Qed.

Lemma system_role_immutable_witness :
  NoDup (map Role._id (roles db_sys)) /\ In sys_role (roles db_sys) /\
  Role.isSystemRole sys_role = true /\
  exists m, updateRole 1 no_update "ACME" 7 db_sys = (inl (ApiError 403 m), db_sys).
Proof.
  assert (Hnd : NoDup (map Role._id (roles db_sys))) by (repeat constructor; simpl; tauto).
  assert (Hin : In sys_role (roles db_sys)) by (simpl; auto).
  split; [exact Hnd|]. split; [exact Hin|]. split; [reflexivity|].
  destruct (system_role_immutable db_sys sys_role Hnd Hin eq_refl) as (_ & _ & Hu & _).
  exact (Hu no_update "ACME" 7%nat).
Defined.

(** C3 counterexample: updating the system role of ["ACME"] with the
    organization code ["WIDGE"] fails with 404, not 403. *)
Lemma system_role_update_other_org_404 :
  fst (updateRole 1 no_update "WIDGE" 7 db_sys) = inl (ApiError 404 "Role not found").
Proof. vm_compute. reflexivity. Qed.

(* ------------------------------------------------------------------ *)
(** ** Role names *)

Lemma find_some_of_in {T} (f : T -> bool) (l : list T) (x : T) :
  In x l -> f x = true -> exists y, find f l = Some y.
Proof.
  induction l as [|a l IH]; simpl; [contradiction|]. intros [<-|H] Hf.
  - rewrite Hf. eauto.
  - destruct (f a); eauto.
Qed.

Lemma find_none_of_all {T} (f : T -> bool) (l : list T) :
  (forall x, In x l -> f x = false) -> find f l = None.
Proof.
  induction l as [|a l IH]; simpl; intros H; auto.
  rewrite (H a (or_introl eq_refl)). auto.
Qed.

(** C4 (corrected).  [createRole] rejects a name already used in the same
    (normalized) organization code with a 400 error (the code has no
    separate 409 Conflict status), leaving the database unchanged; when the
    name is used only under other organization codes and the role data pass
    the schema validators, it succeeds and stores a non-system role. *)
Theorem createRole_name_per_org (s : db) (roleData : RoleInput.create)
    (organizationCode : string) (userId : nat) :
  (forall r, In r (roles s) ->
     Role.name r = Js.trim (RoleInput.name roleData) ->
     Role.organizationCode r = cast_org (Js.toUpperCase organizationCode) ->
     createRole roleData organizationCode userId s =
       (inl (ApiError 400 "Role name already exists in this organization"), s)) /\
  ((forall r, In r (roles s) ->
      Role.name r = Js.trim (RoleInput.name roleData) ->
      Role.organizationCode r <> cast_org (Js.toUpperCase organizationCode)) ->
   createRole_input_valid roleData organizationCode = true ->
   exists role,
     createRole roleData organizationCode userId s = (inr role, set_roles s (roles s ++ [role])) /\
     Role.name role = Js.trim (RoleInput.name roleData) /\
     Role.organizationCode role = cast_org (Js.toUpperCase organizationCode) /\
     Role.isSystemRole role = false).
Proof.
  split.
  - intros r Hin Hn Ho. unfold createRole, catch_map, bind, get_db. simpl.
    destruct (find_some_of_in
                (fun x => String.eqb (Role.name x) (Js.trim (RoleInput.name roleData)) &&
                          String.eqb (Role.organizationCode x) (cast_org (Js.toUpperCase organizationCode)))
                (roles s) r Hin) as [y Hy].
    { rewrite Hn, Ho, !String.eqb_refl. reflexivity. }
    unfold findRoleByName. rewrite Hy. reflexivity.
  - intros Hother Hvalid. unfold createRole, catch_map, bind, get_db. simpl.
    unfold findRoleByName. rewrite find_none_of_all.
    2:{ intros x Hx. destruct (String.eqb_spec (Role.name x) (Js.trim (RoleInput.name roleData))) as [Hn|]; [|reflexivity].
        destruct (String.eqb_spec (Role.organizationCode x) (cast_org (Js.toUpperCase organizationCode))) as [Ho|];
          [exfalso; exact (Hother x Hx Hn Ho)|reflexivity]. }
    unfold createRole_input_valid in Hvalid.
    destruct (role_name_ok _) eqn:E1; [|discriminate].
    destruct (role_displayName_ok _) eqn:E2; [|discriminate].
    destruct (role_description_ok _) eqn:E3; [|discriminate].
    destruct (role_level_ok _) eqn:E4; [|discriminate].
    destruct (role_org_ok _) eqn:E5; [|discriminate].
    unfold validate_role; simpl. rewrite E1, E2, E3, E4, E5. simpl.
    eexists; repeat split; reflexivity.
Qed.

Lemma createRole_name_per_org_witness :
  exists role,
    createRole recruiter50 "WIDGE" 1 (snd (createRole recruiter50 "ACME" 1 db_empty)) =
      (inr role, set_roles (snd (createRole recruiter50 "ACME" 1 db_empty))
                           (roles (snd (createRole recruiter50 "ACME" 1 db_empty)) ++ [role])) /\
    Role.name role = Js.trim (RoleInput.name recruiter50) /\
    Role.organizationCode role = cast_org (Js.toUpperCase "WIDGE") /\
    Role.isSystemRole role = false.
Proof.
  apply (proj2 (createRole_name_per_org _ recruiter50 "WIDGE" 1)).
  - vm_compute. intros r [<-|[]] _ H. discriminate H.
  - vm_compute. reflexivity.
Defined.

(** C4 counterexample: a second "Recruiter" in "ACME" is rejected with
    status 400, which is not the 409 Conflict status. *)
Lemma createRole_duplicate_is_400 :
  fst (createRole recruiter10 "ACME" 1 (snd (createRole recruiter50 "ACME" 1 db_empty))) =
    inl (ApiError 400 "Role name already exists in this organization") /\
  status_of (ApiError 400 "Role name already exists in this organization") <> 409%Z.
Proof. vm_compute. split; [reflexivity|discriminate]. Qed.

(* ------------------------------------------------------------------ *)
(** ** Role deletion *)

Lemma filter_all_true {T} (f : T -> bool) (l : list T) :
  (forall x, In x l -> f x = true) -> filter f l = l.
Proof.
  induction l as [|a l IH]; simpl; intros H; auto.
  rewrite (H a (or_introl eq_refl)). f_equal. auto.
Qed.

Lemma filter_all_false_nil {T} (f : T -> bool) (l : list T) :
  (forall x, In x l -> f x = false) -> filter f l = [].
Proof.
  induction l as [|a l IH]; simpl; intros H; auto.
  rewrite (H a (or_introl eq_refl)). auto.
Qed.

Lemma remove_first_role_unique (l : list Role.t) (r : Role.t) :
  NoDup (map Role._id l) -> In r l ->
  remove_first_role (Role._id r) l = filter (fun x => negb (Nat.eqb (Role._id x) (Role._id r))) l.
Proof.
  induction l as [|a l IH]; simpl; intros Hnd Hin; [contradiction|].
  inversion Hnd as [|? ? Hnot Hnd']; subst.
  destruct Hin as [<-|Hin].
  - rewrite Nat.eqb_refl. simpl. symmetry. apply filter_all_true.
    intros x Hx. destruct (Nat.eqb_spec (Role._id x) (Role._id a)) as [E|]; auto.
    exfalso. apply Hnot. rewrite <- E. apply in_map. auto.
  - assert (Role._id a <> Role._id r) as Hne
      by (intros Heq; apply Hnot; rewrite Heq; apply in_map; auto).
    apply Nat.eqb_neq in Hne. rewrite Hne. simpl. f_equal. auto.
Qed.

(** C7 (corrected).  For a non-system role of the caller's organization
    (ids unique), [deleteRole] fails with a 400 error "Cannot delete role
    that is assigned to N users", N the number of those users (the code has
    no separate 409 Conflict status), leaving the database unchanged, when
    some user of that organization has [role] equal to the role's [level]; when
    no such user exists it succeeds and removes exactly that role. *)
Theorem deleteRole_referential (s : db) (r : Role.t) (organizationCode : string)
    (Hnd : NoDup (map Role._id (roles s))) (Hin : In r (roles s))
    (Hns : Role.isSystemRole r = false)
    (Horg : Role.organizationCode r = cast_org (Js.toUpperCase organizationCode)) :
  ((exists u, In u (users s) /\ User.role u = Role.level r /\
              User.organizationCode u = cast_org (Js.toUpperCase organizationCode)) ->
   (0 < count_users_with_level (Role.level r) organizationCode s)%nat /\
   deleteRole (Role._id r) organizationCode s =
     (inl (ApiError 400 ("Cannot delete role that is assigned to " ++
            Js.number_text (count_users_with_level (Role.level r) organizationCode s) ++ " users")), s)) /\
  ((forall u, In u (users s) -> User.role u = Role.level r ->
              User.organizationCode u <> cast_org (Js.toUpperCase organizationCode)) ->
   deleteRole (Role._id r) organizationCode s =
     (inr tt, set_roles s (filter (fun x => negb (Nat.eqb (Role._id x) (Role._id r))) (roles s)))).
Proof.
  assert (Hfind : findRoleInOrg (Role._id r) organizationCode s = Some r)
    by (rewrite findRoleInOrg_unique; auto; rewrite Horg, String.eqb_refl; reflexivity).
  split.
  - intros (u & Hu & Hr & Ho).
    unfold deleteRole, catch_map, bind, get_db. simpl. rewrite Hfind, Hns.
    unfold count_users_with_level.
    destruct (filter _ (users s)) as [|v rest] eqn:F.
    + exfalso.
      assert (In u (filter (fun u0 => Z.eqb (User.role u0) (Role.level r) &&
                String.eqb (User.organizationCode u0) (cast_org (Js.toUpperCase organizationCode)))
                (users s))) as Hf.
      { apply filter_In. split; auto. rewrite Hr, Ho, Z.eqb_refl, String.eqb_refl. reflexivity. }
      rewrite F in Hf. contradiction.
    + split; [simpl; lia|reflexivity].
  - intros Hnone.
    unfold deleteRole, catch_map, bind, get_db, put_db. simpl. rewrite Hfind, Hns.
    unfold count_users_with_level. rewrite filter_all_false_nil.
    + simpl. unfold delete_role_by_id. rewrite remove_first_role_unique; auto.
    + intros u Hu. destruct (Z.eqb_spec (User.role u) (Role.level r)) as [Hr|]; [|reflexivity].
      destruct (String.eqb_spec (User.organizationCode u) (cast_org (Js.toUpperCase organizationCode))) as [Ho|];
        [exfalso; exact (Hnone u Hu Hr Ho)|reflexivity].
Qed.

Lemma deleteRole_referential_witness :
  deleteRole 2 "ACME" db_hr = (inl (ApiError 400 "Cannot delete role that is assigned to 1 users"), db_hr).
Proof.
  assert (Hnd : NoDup (map Role._id (roles db_hr))) by (repeat constructor; simpl; tauto).
  exact (proj2 (proj1 (deleteRole_referential db_hr hr_role "ACME" Hnd (or_introl eq_refl) eq_refl
                  ltac:(vm_compute; reflexivity))
                (ex_intro _ hr_user (conj (or_introl eq_refl) (conj eq_refl eq_refl))))).
Defined.

(** C7 counterexample: deleting the "hr" role of "ACME" while a user of
    "ACME" holds level 3 fails with status 400, not 409 Conflict. *)
Lemma deleteRole_referenced_is_400 :
  fst (deleteRole 2 "ACME" db_hr) = inl (ApiError 400 "Cannot delete role that is assigned to 1 users") /\
  status_of (ApiError 400 "Cannot delete role that is assigned to 1 users") <> 409%Z /\
  fst (deleteRole 2 "ACME" db_hr_free) = inr tt.
Proof. vm_compute. split; [reflexivity|split; [discriminate|reflexivity]]. Qed.

(* ------------------------------------------------------------------ *)
(** ** Check-out *)

(** C2 (corrected).  For a record found by its id: [markCheckOut] fails with
    400 when the record already has a check-out or [checkOutTime <= checkIn].
    Otherwise, for the time values of valid Dates, it succeeds, setting
    [checkOut], [totalHours] (the difference in hours as the binary64
    [Math.round(hours * 100) / 100], so a value such as 1.005 is stored as 1)
    and [isLoggedIn = false], PROVIDED the resulting notes fit in 500
    characters; if they do not, the save fails with a validation error (400)
    and nothing is written. *)
Theorem markCheckOut_outcome (s : db) (attendanceId : nat) (checkOutTime : Z)
    (updatedBy : nat) (notes : option string) (a : Attendance.t)
    (Hf : find_attendance attendanceId s = Some a) :
  ((Attendance.checkOut a <> None \/ (checkOutTime <= Attendance.checkIn a)%Z) ->
   exists m, markCheckOut attendanceId checkOutTime updatedBy notes s = (inl (AppError 400 m), s)) /\
  (Attendance.checkOut a = None -> (Attendance.checkIn a < checkOutTime)%Z ->
   time_ok (Attendance.checkIn a) = true -> time_ok checkOutTime = true ->
   (notes_ok (checkout_notes_field (Attendance.notes a) notes) = true ->
    exists a',
      markCheckOut attendanceId checkOutTime updatedBy notes s =
        (inr a', set_attendances s (replace_by Attendance._id (Attendance._id a) a' (attendances s))) /\
      Attendance._id a' = Attendance._id a /\
      Attendance.checkIn a' = Attendance.checkIn a /\
      Attendance.checkOut a' = Some checkOutTime /\
      Attendance.totalHours a' = Some (round2 (hours_between (Attendance.checkIn a) checkOutTime)) /\
      Attendance.isLoggedIn a' = false) /\
   (notes_ok (checkout_notes_field (Attendance.notes a) notes) = false ->
    exists m, markCheckOut attendanceId checkOutTime updatedBy notes s = (inl (ValidationError m), s))).
Proof.
  unfold markCheckOut, bind, get_db. simpl. rewrite Hf.
  split.
  - intros [Hco|Hle].
    + destruct (Attendance.checkOut a); [eexists; reflexivity|congruence].
    + destruct (Attendance.checkOut a); [eexists; reflexivity|].
      apply Z.leb_le in Hle. rewrite Hle. eexists; reflexivity.
  - intros Hco Hlt Hti Htc. rewrite Hco.
    assert (Hleb : Z.leb checkOutTime (Attendance.checkIn a) = false) by (apply Z.leb_gt; lia).
    rewrite Hleb.
    unfold save_existing, validate_attendance. simpl.
    split.
    + intros Hn. rewrite Hn.
      rewrite (NumFacts.leb_zero_pos _ (NumFacts.round2_pos _
                 (NumFacts.hours_between_pos _ _ (Z.lt_le_incl _ _ Hlt) Hti Htc))). simpl.
      eexists; split; [reflexivity|]. repeat split; reflexivity.
    + intros Hn. rewrite Hn. simpl. eexists; reflexivity.
Qed.

(* fixtures *)
Lemma markCheckOut_outcome_witness :
  exists a',
    markCheckOut 1 (hour 13) 1 None db_open =
      (inr a', set_attendances db_open (replace_by Attendance._id 1 a' (attendances db_open))) /\
    Attendance._id a' = 1%nat /\
    Attendance.checkIn a' = hour 9 /\
    Attendance.checkOut a' = Some (hour 13) /\
    Attendance.totalHours a' = Some (round2 (hours_between (hour 9) (hour 13))) /\
    Attendance.isLoggedIn a' = false.
Proof.
  destruct (markCheckOut_outcome db_open 1 (hour 13) 1 None open_rec eq_refl) as [_ H].
  exact (proj1 (H eq_refl ltac:(vm_compute; reflexivity) ltac:(vm_compute; reflexivity)
                 ltac:(vm_compute; reflexivity)) ltac:(vm_compute; reflexivity)).
Defined.

(** The stored hours are binary64 values: a session of 3618000 ms is
    1.005 h, [1.005 * 100] evaluates to 100.49999999999999, and the record
    stores 1, not 1.01. *)
Lemma round2_hours_binary64 :
  round2 (hours_between 0 3618000) = Num.of_Z 1 /\
  round2 (hours_between (hour 9) (hour 13)) = Num.of_Z 4.
Proof. split; vm_compute; reflexivity. Qed.

(** C2 counterexample: the open record [open_rec] has no check-out and
    13:00 is after its 09:00 check-in, yet the check-out with notes "x" fails:
    the combined notes exceed 500 characters. *)
Lemma markCheckOut_long_notes_rejected :
  Attendance.checkOut open_rec = None /\ (Attendance.checkIn open_rec < hour 13)%Z /\
  fst (markCheckOut 1 (hour 13) 1 (Some "x") db_open) =
    inl (ValidationError "Notes cannot exceed 500 characters").
Proof. vm_compute. split; [reflexivity|split; [reflexivity|reflexivity]]. Qed.

(* ------------------------------------------------------------------ *)
(** ** Clock-in *)

Lemma fresh_id_gt (ids : list nat) (x : nat) : In x ids -> (x < fresh_id ids)%nat.
Proof.
  unfold fresh_id. induction ids as [|y ids IH]; simpl; [contradiction|].
  intros [->|H]; [lia|]. specialize (IH H). lia.
Qed.

Lemma find_app {T} (f : T -> bool) (l1 l2 : list T) :
  find f (l1 ++ l2) = match find f l1 with Some x => Some x | None => find f l2 end.
Proof. induction l1 as [|a l1 IH]; simpl; auto. destruct (f a); auto. Qed.

Lemma find_attendance_some (s : db) (id : nat) (a : Attendance.t) :
  find_attendance id s = Some a -> In a (attendances s) /\ Attendance._id a = id.
Proof.
  unfold find_attendance. intros H. apply find_some in H as [Hin Heq].
  apply Nat.eqb_eq in Heq. auto.
Qed.

Lemma find_attendance_of_in (s : db) (a : Attendance.t) :
  In a (attendances s) -> exists b, find_attendance (Attendance._id a) s = Some b.
Proof.
  intros Hin. unfold find_attendance.
  apply (find_some_of_in _ _ a Hin). apply Nat.eqb_refl.
Qed.

Lemma replace_by_absent (l : list Attendance.t) (i : nat) (a' : Attendance.t) :
  (forall x, In x l -> Attendance._id x <> i) ->
  replace_by Attendance._id i a' l = l.
Proof.
  induction l as [|y l IH]; simpl; intros H; auto.
  destruct (Nat.eqb_spec (Attendance._id y) i) as [E|_]; [exfalso; exact (H y (or_introl eq_refl) E)|].
  f_equal. auto.
Qed.

(** [replace_by] keeps the (id, checkIn) pairs when the replacement keeps
    those of the first document with that id and ids are unique. *)
Lemma replace_by_id_checkIn (l : list Attendance.t) (i : nat) (a a' : Attendance.t) :
  NoDup (map Attendance._id l) ->
  find (fun x => Nat.eqb (Attendance._id x) i) l = Some a ->
  id_checkIn a' = id_checkIn a ->
  map id_checkIn (replace_by Attendance._id i a' l) = map id_checkIn l.
Proof.
  induction l as [|y l IH]; simpl; intros Hnd Hf Heq; [discriminate|].
  inversion Hnd as [|? ? Hnot Hnd']; subst.
  destruct (Nat.eqb_spec (Attendance._id y) i) as [Hy|Hy].
  - inversion Hf; subst. rewrite Heq. f_equal. f_equal.
    apply replace_by_absent. intros x Hx E. apply Hnot. rewrite <- E. apply in_map. auto.
  - f_equal. apply IH; auto.
Qed.

Lemma replace_by_app_absent (l : list Attendance.t) (y a' : Attendance.t) :
  (forall x, In x l -> Attendance._id x <> Attendance._id y) ->
  replace_by Attendance._id (Attendance._id y) a' (l ++ [y])%list = (l ++ [a'])%list.
Proof.
  intros H. unfold replace_by. rewrite map_app. fold (replace_by Attendance._id (Attendance._id y) a' l).
  rewrite replace_by_absent by exact H. simpl. rewrite Nat.eqb_refl. reflexivity.
Qed.

Section ClockIn.
Variable day_of : Z -> Z.
Variable midnight : Z -> Z.


(** The outcome of a clock-in that finds no record of the day. *)
Lemma markAttendance_new_inv (d : MarkAttendanceData.t) (cb : nat) (s s' : db) (r : Attendance.t) :
  find (today_filter day_of (MarkAttendanceData.employeeId d) (today_key day_of midnight d)) (attendances s) = None ->
  markAttendance day_of midnight d cb s = (inr r, s') ->
  s' = set_attendances s (attendances s ++ [r]) /\
  Attendance._id r = fresh_id (map Attendance._id (attendances s)) /\
  Attendance.employeeId r = MarkAttendanceData.employeeId d /\
  Attendance.date r = today_key day_of midnight d /\
  Attendance.checkIn r = MarkAttendanceData.checkIn d /\
  Attendance.checkOut r = MarkAttendanceData.checkOut d.
Proof.
  intros Hnone H. unfold markAttendance, findUserById, getTodayAttendance, bind, get_db, ret in H.
  destruct (find _ (users s)); [|discriminate].
  unfold today_key in Hnone. rewrite Hnone in H.
  unfold create_attendance, bind, get_db, put_db, ret, throw in H.
  destruct (validate_attendance _); [discriminate|].
  inversion H; subst. unfold pre_save_hook.
  destruct (MarkAttendanceData.checkOut d); repeat split; reflexivity.
Qed.

(** The outcome of a clock-in that finds the record [e] of the day. *)
Lemma markAttendance_existing_inv (d : MarkAttendanceData.t) (cb : nat) (s s' : db)
    (r e : Attendance.t) :
  find (today_filter day_of (MarkAttendanceData.employeeId d) (today_key day_of midnight d)) (attendances s) = Some e ->
  markAttendance day_of midnight d cb s = (inr r, s') ->
  exists a,
    find_attendance (Attendance._id e) s = Some a /\
    r = reopen_update (Js.or_str (MarkAttendanceData.notes d) (Attendance.notes e)) cb e a /\
    s' = set_attendances s (replace_by Attendance._id (Attendance._id e) r (attendances s)).
Proof.
  intros He H. unfold markAttendance, findUserById, getTodayAttendance, bind, get_db, ret in H.
  destruct (find _ (users s)); [|discriminate].
  unfold today_key in He. rewrite He in H.
  unfold findByIdAndUpdate, bind, get_db, put_db, ret, throw in H.
  destruct (find_attendance (Attendance._id e) s) as [a|] eqn:Fa; [|discriminate].
  destruct (notes_ok _); simpl in H; [|discriminate].
  inversion H; subst. eexists; split; [reflexivity|split; reflexivity].
Qed.

Lemma markCheckOut_inv (id : nat) (t : Z) (ub : nat) (n : option string) (s s' : db)
    (r : Attendance.t) :
  markCheckOut id t ub n s = (inr r, s') ->
  exists a,
    find_attendance id s = Some a /\
    s' = set_attendances s (replace_by Attendance._id id r (attendances s)) /\
    Attendance._id r = id /\
    Attendance.employeeId r = Attendance.employeeId a /\
    Attendance.date r = Attendance.date a /\
    Attendance.checkIn r = Attendance.checkIn a.
Proof.
  intros H. unfold markCheckOut, bind, get_db in H.
  destruct (find_attendance id s) as [a|] eqn:Fa; [|discriminate].
  destruct (Attendance.checkOut a); [discriminate|].
  destruct (Z.leb t (Attendance.checkIn a)); [discriminate|].
  unfold save_existing, bind, get_db, put_db, ret, throw in H.
  destruct (validate_attendance _); [discriminate|].
  inversion H; subst. apply find_attendance_some in Fa as [_ Hid].
  exists a. simpl. rewrite Hid. repeat split; reflexivity.
Qed.

End ClockIn.

(** C1.  A clock-in never changes the check-in of a stored record: the
    (id, checkIn) pairs of the collection are kept and at most new records
    are appended.  In particular, after a first clock-in of the day, a
    check-out and a second clock-in on the same local day, the record the
    second clock-in returns is the day's record and its [checkIn] is the
    time of the first clock-in. *)
Theorem markAttendance_keeps_first_checkIn (day_of midnight : Z -> Z) :
  (forall d cb s r s',
     NoDup (map Attendance._id (attendances s)) ->
     markAttendance day_of midnight d cb s = (inr r, s') ->
     exists extra, map id_checkIn (attendances s') = (map id_checkIn (attendances s) ++ extra)%list) /\
  (forall s0 d1 cb1 r1 s1 t2 ub2 n2 r2 s2 d3 cb3 r3 s3,
     find (today_filter day_of (MarkAttendanceData.employeeId d1) (today_key day_of midnight d1))
          (attendances s0) = None ->
     MarkAttendanceData.employeeId d3 = MarkAttendanceData.employeeId d1 ->
     day_of (MarkAttendanceData.checkIn d3) = day_of (MarkAttendanceData.checkIn d1) ->
     markAttendance day_of midnight d1 cb1 s0 = (inr r1, s1) ->
     markCheckOut (Attendance._id r1) t2 ub2 n2 s1 = (inr r2, s2) ->
     markAttendance day_of midnight d3 cb3 s2 = (inr r3, s3) ->
     Attendance._id r3 = Attendance._id r1 /\
     Attendance.checkIn r3 = MarkAttendanceData.checkIn d1 /\
     Attendance.checkIn r1 = MarkAttendanceData.checkIn d1).
Proof.
  split.
  - intros d cb s r s' Hnd H.
    destruct (find (today_filter day_of (MarkAttendanceData.employeeId d) (today_key day_of midnight d))
                   (attendances s)) as [e|] eqn:Fe.
    + destruct (markAttendance_existing_inv day_of midnight d cb s s' r e Fe H) as (a & Fa & -> & ->).
      exists []. rewrite app_nil_r. simpl.
      apply (replace_by_id_checkIn _ _ a); auto.
    + destruct (markAttendance_new_inv day_of midnight d cb s s' r Fe H) as (-> & _).
      exists [id_checkIn r]. simpl. apply map_app.
  - intros s0 d1 cb1 r1 s1 t2 ub2 n2 r2 s2 d3 cb3 r3 s3 Hfirst Hemp Hday H1 H2 H3.
    destruct (markAttendance_new_inv day_of midnight d1 cb1 s0 s1 r1 Hfirst H1)
      as (-> & Hid1 & Hemp1 & Hdate1 & Hci1 & _).
    destruct (markCheckOut_inv _ _ _ _ _ _ r2 H2) as (a2 & Fa2 & -> & Hid2 & Hemp2 & Hdate2 & Hci2).
    (* [markCheckOut] found [r1]: the records of [s0] have smaller ids *)
    assert (Hfresh : forall x, In x (attendances s0) -> Attendance._id x <> Attendance._id r1).
    { intros x Hx E. rewrite Hid1 in E.
      pose proof (fresh_id_gt (map Attendance._id (attendances s0)) (Attendance._id x)
                    (in_map _ _ _ Hx)). lia. }
    assert (Ha2 : a2 = r1).
    { unfold find_attendance in Fa2. simpl in Fa2. rewrite find_app in Fa2.
      rewrite find_none_of_all in Fa2.
      - simpl in Fa2. rewrite Nat.eqb_refl in Fa2. inversion Fa2; auto.
      - intros x Hx. apply Nat.eqb_neq. auto. }
    subst a2. simpl in H3.
    rewrite replace_by_app_absent in H3 by exact Hfresh.
    (* the second clock-in finds the checked-out record *)
    assert (Hkey : today_key day_of midnight d3 = today_key day_of midnight d1)
      by (unfold today_key; rewrite Hday; reflexivity).
    assert (Fe : find (today_filter day_of (MarkAttendanceData.employeeId d3) (today_key day_of midnight d3))
                      (attendances s0 ++ [r2])%list = Some r2).
    { rewrite Hemp, Hkey, find_app, Hfirst. simpl.
      unfold today_filter. rewrite Hemp2, Hemp1, Nat.eqb_refl, Hdate2, Hdate1, Z.eqb_refl. reflexivity. }
    destruct (markAttendance_existing_inv day_of midnight d3 cb3
                (set_attendances s0 (attendances s0 ++ [r2])%list) s3 r3 r2 Fe H3) as (a3 & Fa3 & -> & _).
    unfold find_attendance in Fa3. simpl in Fa3. rewrite find_app in Fa3.
    rewrite find_none_of_all in Fa3.
    + simpl in Fa3. rewrite Nat.eqb_refl in Fa3. inversion Fa3; subst a3.
      simpl. repeat split; congruence.
    + intros x Hx. apply Nat.eqb_neq. rewrite Hid2. auto.
Qed.


Lemma markAttendance_keeps_first_checkIn_witness :
  day1_in = (inr (result_or open_rec day1_in), snd day1_in) /\
  day1_out = (inr (result_or open_rec day1_out), snd day1_out) /\
  day1_back = (inr (result_or open_rec day1_back), snd day1_back) /\
  Attendance._id (result_or open_rec day1_back) = Attendance._id (result_or open_rec day1_in) /\
  Attendance.checkIn (result_or open_rec day1_back) = hour 9.
Proof.
  assert (E1 : day1_in = (inr (result_or open_rec day1_in), snd day1_in)) by (vm_compute; reflexivity).
  assert (E2 : day1_out = (inr (result_or open_rec day1_out), snd day1_out)) by (vm_compute; reflexivity).
  assert (E3 : day1_back = (inr (result_or open_rec day1_back), snd day1_back)) by (vm_compute; reflexivity).
  destruct (proj2 (markAttendance_keeps_first_checkIn utc_day_of utc_midnight)
              db_people (clock_in 1 (hour 9) None) 1%nat (result_or open_rec day1_in) (snd day1_in)
              (hour 13) 1%nat None (result_or open_rec day1_out) (snd day1_out)
              (clock_in 1 (hour 14) None) 1%nat (result_or open_rec day1_back) (snd day1_back)
              ltac:(vm_compute; reflexivity) eq_refl ltac:(vm_compute; reflexivity) E1 E2 E3)
    as (Hid & Hci & _).
  split; [exact E1|]. split; [exact E2|]. split; [exact E3|]. split; [exact Hid|exact Hci].
Defined.

Lemma find_attendance_unique (s : db) (e : Attendance.t) :
  NoDup (map Attendance._id (attendances s)) -> In e (attendances s) ->
  find_attendance (Attendance._id e) s = Some e.
Proof.
  intros Hnd Hin. unfold find_attendance.
  rewrite (find_ext_in _ (fun x => Nat.eqb (Attendance._id x) (Attendance._id e) && (fun _ => true) x))
    by (intros x _; rewrite andb_true_r; reflexivity).
  rewrite (find_unique_id Attendance._id (fun _ => true) _ e Hnd Hin). reflexivity.
Qed.

(** The reopen branch of [markAttendance], computed: the employee is found,
    [e] is the record of the day and [a] the record [findByIdAndUpdate] loads. *)
Lemma markAttendance_reopen_eq (day_of midnight : Z -> Z) (d : MarkAttendanceData.t) (cb : nat)
    (s : db) (u : User.t) (e a : Attendance.t) :
  find (fun x => Nat.eqb (User._id x) (MarkAttendanceData.employeeId d)) (users s) = Some u ->
  find (today_filter day_of (MarkAttendanceData.employeeId d)
          (midnight (day_of (MarkAttendanceData.checkIn d)))) (attendances s) = Some e ->
  find_attendance (Attendance._id e) s = Some a ->
  markAttendance day_of midnight d cb s =
    (let r := reopen_update (Js.or_str (MarkAttendanceData.notes d) (Attendance.notes e)) cb e a in
     if notes_ok (Attendance.notes r)
     then (inr r, set_attendances s (replace_by Attendance._id (Attendance._id e) r (attendances s)))
     else (inl (ValidationError "Notes cannot exceed 500 characters"), s)).
Proof.
  intros Hu He Ha.
  unfold markAttendance, findUserById, getTodayAttendance, findByIdAndUpdate, bind, get_db, put_db, ret, throw.
  cbv beta iota zeta. rewrite Hu, He, Ha.
  destruct (notes_ok _); reflexivity.
Qed.

(** The first clock-in of the day, computed: the employee is found and no
    record of the day exists. *)
Lemma markAttendance_create_eq (day_of midnight : Z -> Z) (d : MarkAttendanceData.t) (cb : nat)
    (s : db) (u : User.t) :
  find (fun x => Nat.eqb (User._id x) (MarkAttendanceData.employeeId d)) (users s) = Some u ->
  find (today_filter day_of (MarkAttendanceData.employeeId d)
          (midnight (day_of (MarkAttendanceData.checkIn d)))) (attendances s) = None ->
  notes_ok (option_map Js.trim (MarkAttendanceData.notes d)) = true ->
  exists r,
    markAttendance day_of midnight d cb s = (inr r, set_attendances s (attendances s ++ [r])) /\
    Attendance.employeeId r = MarkAttendanceData.employeeId d /\
    Attendance.checkIn r = MarkAttendanceData.checkIn d.
Proof.
  intros Hu Hn Hnotes.
  unfold markAttendance, findUserById, getTodayAttendance, bind, get_db, ret.
  cbv beta iota zeta. rewrite Hu, Hn.
  unfold create_attendance, validate_attendance, bind, get_db, put_db, ret. simpl.
  rewrite Hnotes. simpl.
  eexists. split; [reflexivity|].
  unfold pre_save_hook. destruct (MarkAttendanceData.checkOut d); split; reflexivity.
Qed.

(** C6 (amended).  [markAttendance] checks only that the employee exists,
    never the user's [status].  For an employee id that resolves to no user
    it fails with 404 "Employee not found" and leaves the state unchanged.
    For every existing user, active or not: with no record of the day and
    notes that fit in 500 characters once trimmed, the clock-in succeeds and
    appends one record for that employee; a same-day re-clock-in succeeds
    exactly when the record's resulting notes (the new notes, else the stored
    ones, trimmed) fit in 500 characters, and otherwise fails with a 400
    validation error and nothing is written. *)
Theorem markAttendance_employee_check (day_of midnight : Z -> Z) (d : MarkAttendanceData.t)
    (cb : nat) (s : db) :
  (find (fun x => Nat.eqb (User._id x) (MarkAttendanceData.employeeId d)) (users s) = None ->
   markAttendance day_of midnight d cb s = (inl (AppError 404 "Employee not found"), s)) /\
  (forall u,
     find (fun x => Nat.eqb (User._id x) (MarkAttendanceData.employeeId d)) (users s) = Some u ->
     (find (today_filter day_of (MarkAttendanceData.employeeId d)
              (midnight (day_of (MarkAttendanceData.checkIn d)))) (attendances s) = None ->
      notes_ok (option_map Js.trim (MarkAttendanceData.notes d)) = true ->
      exists r,
        markAttendance day_of midnight d cb s = (inr r, set_attendances s (attendances s ++ [r])) /\
        Attendance.employeeId r = MarkAttendanceData.employeeId d) /\
     (forall e,
        find (today_filter day_of (MarkAttendanceData.employeeId d)
                (midnight (day_of (MarkAttendanceData.checkIn d)))) (attendances s) = Some e ->
        (notes_ok (option_map Js.trim (Js.or_str (MarkAttendanceData.notes d) (Attendance.notes e))) = true ->
         exists r s', markAttendance day_of midnight d cb s = (inr r, s')) /\
        (notes_ok (option_map Js.trim (Js.or_str (MarkAttendanceData.notes d) (Attendance.notes e))) = false ->
         markAttendance day_of midnight d cb s =
           (inl (ValidationError "Notes cannot exceed 500 characters"), s)))).
Proof.
  split.
  - intros Hu. unfold markAttendance, findUserById, bind, get_db, ret, throw.
    cbv beta iota zeta. rewrite Hu. reflexivity.
  - intros u Hu. split.
    + intros Hn Hnotes.
      destruct (markAttendance_create_eq day_of midnight d cb s u Hu Hn Hnotes) as (r & E & Hemp & _).
      exists r. split; assumption.
    + intros e He.
      pose proof (find_some _ _ He) as [Hin _].
      destruct (find_attendance_of_in s e Hin) as [a Ha].
      rewrite (markAttendance_reopen_eq day_of midnight d cb s u e a Hu He Ha). simpl.
      split; intros Hn; rewrite Hn; eauto.
Qed.

(** [former] is INACTIVE: the first clock-in of the day still succeeds. *)
Lemma markAttendance_employee_check_witness :
  User.status former = INACTIVE /\
  exists r,
    markAttendance utc_day_of utc_midnight (clock_in 2 (hour 9) None) 1 db_people =
      (inr r, set_attendances db_people (attendances db_people ++ [r])) /\
    Attendance.employeeId r = 2%nat.
Proof.
  split; [reflexivity|].
  exact (proj1 (proj2 (markAttendance_employee_check utc_day_of utc_midnight (clock_in 2 (hour 9) None) 1 db_people)
                  former eq_refl) eq_refl eq_refl).
Defined.

(** C6 counterexample: [former] has status INACTIVE, yet its clock-in
    succeeds and creates a record instead of failing with 404.  And
    [worker] exists and is active and [open_rec] is the record of the day,
    yet the re-clock-in at 10:00 with a 501-character note is rejected. *)
Lemma markAttendance_inactive_accepted :
  User.status former = INACTIVE /\ In former (users db_people) /\
  fst (markAttendance utc_day_of utc_midnight (clock_in 2 (hour 9) None) 1 db_people) =
    inr (result_or open_rec (markAttendance utc_day_of utc_midnight (clock_in 2 (hour 9) None) 1 db_people)) /\
  length (attendances (snd (markAttendance utc_day_of utc_midnight (clock_in 2 (hour 9) None) 1 db_people))) = 1%nat /\
  User.status worker = ACTIVE /\ In worker (users db_open) /\
  find (today_filter utc_day_of 1 (utc_midnight (utc_day_of (hour 10)))) (attendances db_open) = Some open_rec /\
  fst (markAttendance utc_day_of utc_midnight (clock_in 1 (hour 10) (Some (long_notes ++ "b"))) 1 db_open) =
    inl (ValidationError "Notes cannot exceed 500 characters").
Proof. vm_compute. repeat split; auto. Qed.

(** C9.  On a same-day re-clock-in against the record [e] of the day, the
    update keeps the record's id, employee, date, [checkIn] and [totalHours],
    leaves no [checkOut], and sets [status] to PRESENT and [isLoggedIn] to
    true whatever they were; only that record is replaced.  When the
    resulting notes exceed 500 characters the update is refused. *)
Theorem markAttendance_reopen_frame (day_of midnight : Z -> Z) (d : MarkAttendanceData.t)
    (cb : nat) (s : db) (u : User.t) (e : Attendance.t) :
  NoDup (map Attendance._id (attendances s)) ->
  find (fun x => Nat.eqb (User._id x) (MarkAttendanceData.employeeId d)) (users s) = Some u ->
  find (today_filter day_of (MarkAttendanceData.employeeId d)
          (midnight (day_of (MarkAttendanceData.checkIn d)))) (attendances s) = Some e ->
  (notes_ok (option_map Js.trim (Js.or_str (MarkAttendanceData.notes d) (Attendance.notes e))) = true ->
   exists r,
     markAttendance day_of midnight d cb s =
       (inr r, set_attendances s (replace_by Attendance._id (Attendance._id e) r (attendances s))) /\
     Attendance._id r = Attendance._id e /\
     Attendance.employeeId r = Attendance.employeeId e /\
     Attendance.date r = Attendance.date e /\
     Attendance.checkIn r = Attendance.checkIn e /\
     Attendance.totalHours r = Attendance.totalHours e /\
     Attendance.checkOut r = None /\
     Attendance.status r = PRESENT /\
     Attendance.isLoggedIn r = true) /\
  (notes_ok (option_map Js.trim (Js.or_str (MarkAttendanceData.notes d) (Attendance.notes e))) = false ->
   markAttendance day_of midnight d cb s =
     (inl (ValidationError "Notes cannot exceed 500 characters"), s)).
Proof.
  intros Hnd Hu He.
  pose proof (find_some _ _ He) as [Hin _].
  rewrite (markAttendance_reopen_eq day_of midnight d cb s u e e Hu He
             (find_attendance_unique s e Hnd Hin)).
  simpl. split; intros Hn; rewrite Hn; [|reflexivity].
  eexists; split; [reflexivity|].
  simpl. destruct (Attendance.checkOut e) eqn:Ec; repeat split; auto.
Qed.

Lemma markAttendance_reopen_frame_witness :
  exists r,
    markAttendance utc_day_of utc_midnight (clock_in 1 (hour 14) None) 1 db_closed =
      (inr r, set_attendances db_closed (replace_by Attendance._id 1 r (attendances db_closed))) /\
    Attendance.checkIn r = hour 9 /\
    Attendance.totalHours r = Attendance.totalHours closed_rec /\
    Attendance.checkOut r = None /\
    Attendance.status closed_rec = LATE /\ Attendance.status r = PRESENT /\
    Attendance.isLoggedIn r = true.
Proof.
  destruct (proj1 (markAttendance_reopen_frame utc_day_of utc_midnight (clock_in 1 (hour 14) None) 1
                     db_closed worker closed_rec ltac:(vm_compute; repeat constructor; simpl; tauto)
                     eq_refl ltac:(vm_compute; reflexivity))
                  ltac:(vm_compute; reflexivity))
    as (r & Hm & _ & _ & _ & Hci & Hth & Hco & Hst & Hli).
  exists r. repeat split; auto.
Defined.

(* ------------------------------------------------------------------ *)
(** ** Properties of the further operations *)

(** [optionalOrganizationCode] sets [req.organizationCode] to exactly the
    code [extractOrganizationCode] would accept, and leaves it unset on every
    request that [extractOrganizationCode] rejects with 400 (it then still
    calls [next()]). *)
Theorem optionalOrganizationCode_agrees (req : OrgCode.request) :
  optionalOrganizationCode req =
    match OrgCode.extractOrganizationCode req with
    | OrgCode.Next c => Some c
    | OrgCode.SendError _ _ => None
    end.
Proof.
  unfold optionalOrganizationCode, OrgCode.extractOrganizationCode.
  destruct (OrgCode.select_org_code req); try reflexivity.
  destruct (Js.truthy (Js.Str s)); simpl; [|reflexivity].
  destruct (OrgCode.org_code_re _); reflexivity.
Qed.

Section SortBy.
Context {T : Type} (le : T -> T -> bool).
Hypothesis le_total : forall a b, le a b = false -> le b a = true.

Lemma insert_by_perm (x : T) (l : list T) : Permutation (x :: l) (insert_by le x l).
Proof.
  induction l as [|y l IH]; simpl; [auto|].
  destruct (le x y); [auto|].
  eapply perm_trans; [apply perm_swap|]. constructor. exact IH.
Qed.

Lemma sort_by_perm (l : list T) : Permutation l (sort_by le l).
Proof.
  induction l as [|x l IH]; simpl; [auto|].
  eapply perm_trans; [apply perm_skip, IH|]. apply insert_by_perm.
Qed.

Lemma insert_by_sorted (x : T) (l : list T) :
  Sorted (fun a b => le a b = true) l -> Sorted (fun a b => le a b = true) (insert_by le x l).
Proof.
  induction l as [|y l IH]; simpl; intros Hs; [auto|].
  destruct (le x y) eqn:Hxy; [constructor; auto|].
  apply Sorted_inv in Hs as [Hs Hhd].
  constructor; [auto|].
  destruct l as [|z l]; simpl; [constructor; auto|].
  inversion Hhd; subst.
  destruct (le x z); constructor; auto.
Qed.

Lemma sort_by_sorted (l : list T) : Sorted (fun a b => le a b = true) (sort_by le l).
Proof. induction l; simpl; auto using insert_by_sorted. Qed.

End SortBy.

Lemma role_le_total (a b : Role.t) : role_le a b = false -> role_le b a = true.
Proof.
  unfold role_le. intros H.
  apply orb_false_iff in H as [H1 H2].
  apply Z.ltb_ge in H1.
  destruct (Z.eq_dec (Role.level a) (Role.level b)) as [E|E].
  - rewrite E, Z.eqb_refl in H2. simpl in H2.
    rewrite E, Z.ltb_irrefl, Z.eqb_refl. simpl.
    rewrite String.compare_antisym.
    destruct (String.compare (Role.name a) (Role.name b)); simpl; congruence.
  - apply orb_true_iff. left. apply Z.ltb_lt. lia.
Qed.

Lemma role_le_level (a b : Role.t) : role_le a b = true -> (Role.level a <= Role.level b)%Z.
Proof.
  unfold role_le. intros H. apply orb_true_iff in H as [H|H].
  - apply Z.ltb_lt in H. lia.
  - apply andb_true_iff in H as [H _]. apply Z.eqb_eq in H. lia.
Qed.

Lemma Sorted_weaken {T} (R R' : T -> T -> Prop) (l : list T) :
  (forall a b, R a b -> R' a b) -> Sorted R l -> Sorted R' l.
Proof.
  intros HR Hs. induction Hs as [|a l Hs IH Hhd]; constructor; auto.
  destruct Hhd; constructor; auto.
Qed.

Lemma sorted_roles_by_level (l : list Role.t) :
  Sorted (fun a b => (Role.level a <= Role.level b)%Z) (sort_by role_le l).
Proof.
  eapply Sorted_weaken; [|apply (sort_by_sorted role_le role_le_total)].
  intros a b. apply role_le_level.
Qed.

Lemma map_fst_populate (s : db) (l : list Role.t) : map fst (map (populate_role s) l) = l.
Proof. rewrite map_map. simpl. apply map_id. Qed.

Lemma in_populated (s : db) (l : list Role.t) (r : Role.t) (ps : list Permission.t) :
  In (r, ps) (map (populate_role s) l) -> ps = populate_permissions s (Role.permissions r).
Proof.
  intros H. apply in_map_iff in H as (x & Hx & _). unfold populate_role in Hx.
  inversion Hx; subst. reflexivity.
Qed.

(** [getAllRoles organizationCode includeSystemRoles] reads without
    writing and returns each role of the (normalised) organization once,
    system roles only when [includeSystemRoles] is true, ordered by
    [level], each with its populated permissions. *)
Theorem getAllRoles_result (organizationCode : string) (includeSystemRoles : bool) (s : db) :
  exists l,
    getAllRoles organizationCode includeSystemRoles s = (inr l, s) /\
    Permutation (map fst l) (filter (all_roles_filter organizationCode includeSystemRoles) (roles s)) /\
    (forall r, In r (map fst l) <->
               In r (roles s) /\
               Role.organizationCode r = cast_org (Js.toUpperCase organizationCode) /\
               (includeSystemRoles = false -> Role.isSystemRole r = false)) /\
    Sorted (fun a b => (Role.level a <= Role.level b)%Z) (map fst l) /\
    (forall r ps, In (r, ps) l -> ps = populate_permissions s (Role.permissions r)).
Proof.
  eexists. split; [reflexivity|]. rewrite map_fst_populate.
  split; [symmetry; apply sort_by_perm|].
  split; [|split; [apply sorted_roles_by_level|apply in_populated]].
  intros r. split.
  - intros Hin. apply (Permutation_in _ (Permutation_sym (sort_by_perm role_le _))) in Hin.
    apply filter_In in Hin as [Hin Hf]. unfold all_roles_filter in Hf.
    apply andb_true_iff in Hf as [Ho Hs]. apply String.eqb_eq in Ho.
    split; [exact Hin|split; [exact Ho|]]. intros ->. simpl in Hs. apply negb_true_iff; exact Hs.
  - intros (Hin & Ho & Hs). apply (Permutation_in _ (sort_by_perm role_le _)).
    apply filter_In. split; [exact Hin|]. unfold all_roles_filter.
    rewrite Ho, String.eqb_refl. destruct includeSystemRoles; simpl; [reflexivity|].
    rewrite Hs by reflexivity. reflexivity.
Qed.

(** [getRolesByLevel maxLevel] reads without writing and returns every
    non-system role with [level <= maxLevel] of every organization: its
    filter has no organization code.  The roles come ordered by [level]. *)
Theorem getRolesByLevel_cross_tenant (maxLevel : Z) (s : db) :
  exists l,
    getRolesByLevel maxLevel s = (inr l, s) /\
    Permutation (map fst l) (filter (roles_by_level_filter maxLevel) (roles s)) /\
    (forall r, In r (map fst l) <->
               In r (roles s) /\ (Role.level r <= maxLevel)%Z /\ Role.isSystemRole r = false) /\
    Sorted (fun a b => (Role.level a <= Role.level b)%Z) (map fst l).
Proof.
  eexists. split; [reflexivity|]. rewrite map_fst_populate.
  split; [symmetry; apply sort_by_perm|].
  split; [|apply sorted_roles_by_level].
  intros r. split.
  - intros Hin. apply (Permutation_in _ (Permutation_sym (sort_by_perm role_le _))) in Hin.
    revert Hin. rewrite filter_In. unfold roles_by_level_filter.
    rewrite andb_true_iff, Z.leb_le, negb_true_iff. tauto.
  - intros H. apply (Permutation_in _ (sort_by_perm role_le _)).
    revert H. rewrite filter_In. unfold roles_by_level_filter.
  rewrite andb_true_iff, Z.leb_le, negb_true_iff. tauto.
Qed.

Lemma createRole_inv (roleData : RoleInput.create) (organizationCode : string) (userId : nat)
    (s s' : db) (r : Role.t) :
  createRole roleData organizationCode userId s = (inr r, s') ->
  s' = set_roles s (roles s ++ [r]) /\
  Role._id r = fresh_id (map Role._id (roles s)) /\
  Role.organizationCode r = cast_org (Js.toUpperCase organizationCode) /\
  Role.permissions r = [].
Proof.
  unfold createRole, catch_map, bind, get_db, put_db, ret, throw.
  destruct (findRoleByName _ _ s); [discriminate|].
  destruct (validate_role _); [discriminate|].
  intros H; inversion H; subst. repeat split; reflexivity.
Qed.

(** A role returned by [createRole] is found again by [getRoleById] with
    its id and the same organization code, with no permissions. *)
Theorem createRole_getRoleById (roleData : RoleInput.create) (organizationCode : string)
    (userId : nat) (s s' : db) (r : Role.t) :
  createRole roleData organizationCode userId s = (inr r, s') ->
  getRoleById (OidValid (Role._id r)) organizationCode s' = (inr (r, []), s').
Proof.
  intros H. destruct (createRole_inv _ _ _ _ _ _ H) as (-> & Hid & Horg & Hperm).
  unfold getRoleById, bind, get_db, ret, throw, findRoleInOrg. simpl.
  rewrite find_app, find_none_of_all.
  - simpl. rewrite Nat.eqb_refl, Horg, String.eqb_refl. simpl.
    unfold populate_role. rewrite Hperm. reflexivity.
  - intros x Hx. apply andb_false_iff. left. apply Nat.eqb_neq. intros E.
    pose proof (fresh_id_gt (map Role._id (roles s)) (Role._id x) (in_map _ _ _ Hx)). lia.
Qed.

Lemma createRole_getRoleById_witness :
  exists r s', createRole recruiter50 " acme" 7 db_empty = (inr r, s') /\
    getRoleById (OidValid (Role._id r)) " acme" s' = (inr (r, []), s').
Proof.
  destruct (createRole recruiter50 " acme" 7 db_empty) as [[e|r] s'] eqn:E.
  - vm_compute in E. discriminate.
  - exists r, s'. split; [reflexivity|]. exact (createRole_getRoleById _ _ _ _ _ _ E).
Defined.

Lemma deleteRole_inv (roleId : nat) (organizationCode : string) (s s' : db) (u : unit) :
  deleteRole roleId organizationCode s = (inr u, s') ->
  exists role, findRoleInOrg roleId organizationCode s = Some role /\
               s' = set_roles s (delete_role_by_id roleId (roles s)).
Proof.
  unfold deleteRole, catch_map, bind, get_db, put_db, ret, throw.
  destruct (findRoleInOrg roleId organizationCode s) as [role|]; [|discriminate].
  destruct (Role.isSystemRole role); [discriminate|].
  destruct (0 <? _)%nat; [discriminate|].
  intros H; inversion H; subst. eauto.
Qed.

(** Once [deleteRole] has removed a role (ids unique), [getRoleById]
    answers 404 for that id under every organization code. *)
Theorem deleteRole_then_getRoleById (roleId : nat) (organizationCode organizationCode' : string)
    (s s' : db) (u : unit) :
  NoDup (map Role._id (roles s)) ->
  deleteRole roleId organizationCode s = (inr u, s') ->
  getRoleById (OidValid roleId) organizationCode' s' = (inl (ApiError 404 "Role not found"), s').
Proof.
  intros Hnd H. destruct (deleteRole_inv _ _ _ _ _ H) as (role & Hf & ->).
  unfold findRoleInOrg in Hf. apply find_some in Hf as [Hin Hm].
  apply andb_true_iff in Hm as [Hid _]. apply Nat.eqb_eq in Hid. subst roleId.
  unfold getRoleById, bind, get_db, ret, throw, findRoleInOrg, delete_role_by_id. simpl.
  rewrite (remove_first_role_unique _ _ Hnd Hin).
  rewrite find_none_of_all; [reflexivity|].
  intros x Hx. apply filter_In in Hx as [_ Hx]. apply negb_true_iff in Hx.
  rewrite Hx. reflexivity.
Qed.

Lemma deleteRole_then_getRoleById_witness :
  deleteRole 2 "acme" db_hr_free = (inr tt, set_roles db_hr_free []) /\
  getRoleById (OidValid 2) "ACME" (set_roles db_hr_free []) =
    (inl (ApiError 404 "Role not found"), set_roles db_hr_free []).
Proof.
  assert (H : deleteRole 2 "acme" db_hr_free = (inr tt, set_roles db_hr_free [])) by (vm_compute; reflexivity).
  split; [exact H|].
  exact (deleteRole_then_getRoleById 2 "acme" "ACME" db_hr_free _ tt ltac:(vm_compute; repeat constructor; simpl; tauto) H).
Defined.

Lemma mem_nat_In (x : nat) (l : list nat) : mem_nat x l = true <-> In x l.
Proof.
  unfold mem_nat. rewrite existsb_exists. split.
  - intros (y & Hy & E). apply Nat.eqb_eq in E. subst. exact Hy.
  - intros H. exists x. split; [exact H|apply Nat.eqb_refl].
Qed.

Lemma find_replace_by_role (l : list Role.t) (i : nat) (x : Role.t) :
  (exists y, In y l /\ Role._id y = i) -> Role._id x = i ->
  find (fun r => Nat.eqb (Role._id r) i) (replace_by Role._id i x l) = Some x.
Proof.
  intros (y & Hy & Hyi) Hx. induction l as [|z l IH]; simpl in *; [contradiction|].
  destruct (Nat.eqb_spec (Role._id z) i) as [Hz|Hz].
  - simpl. rewrite Hx, Nat.eqb_refl. reflexivity.
  - simpl. rewrite Nat.eqb_sym. destruct (Nat.eqb_spec i (Role._id z)); [congruence|].
    apply IH. destruct Hy as [<-|Hy]; [congruence|exact Hy].
Qed.

Lemma find_id_unique {T} (f : T -> nat) (l : list T) (r : T) :
  NoDup (map f l) -> In r l -> find (fun x => Nat.eqb (f x) (f r)) l = Some r.
Proof.
  induction l as [|a l IH]; simpl; intros Hnd Hin; [contradiction|].
  inversion Hnd as [|? ? Hnot Hnd']; subst.
  destruct Hin as [<-|Hin]; [rewrite Nat.eqb_refl; reflexivity|].
  destruct (Nat.eqb_spec (f a) (f r)) as [E|_]; [|auto].
  exfalso. apply Hnot. rewrite E. apply in_map. exact Hin.
Qed.

Lemma save_role_inv (r : Role.t) (s s' : db) (r' : Role.t) :
  save_role r s = (inr r', s') ->
  r' = r /\ s' = set_roles s (replace_by Role._id (Role._id r) r (roles s)).
Proof.
  unfold save_role, bind, get_db, put_db, ret, throw.
  destruct (validate_role r); [discriminate|]. intros H; inversion H; auto.
Qed.

(** The lookup of [hasPermission] after a role [r] replaced the role it was
    built from. *)
Lemma hasPermission_after_save (roleId : nat) (role r : Role.t) (s : db) (n : string) :
  findRoleById roleId s = Some role -> Role._id r = roleId ->
  hasPermission (OidValid roleId) n (set_roles s (replace_by Role._id (Role._id r) r (roles s))) =
  existsb (fun p => String.eqb (Permission.name p) n) (populate_permissions s (Role.permissions r)).
Proof.
  intros Hf Hid. unfold hasPermission, findRoleById. simpl.
  apply find_some in Hf as [Hin E]. apply Nat.eqb_eq in E.
  rewrite Hid, find_replace_by_role; [reflexivity|eauto|exact Hid].
Qed.

(** After [addPermissions roleId permissionIds] succeeds, [hasPermission]
    on that role is true for the name of every permission whose id was
    passed (permission ids unique). *)
Theorem addPermissions_hasPermission (roleId : nat) (permissionIds : list nat) (s s' : db)
    (r : Role.t) (p : Permission.t) :
  NoDup (map Permission._id (permissions s)) ->
  addPermissions roleId permissionIds s = (inr r, s') ->
  In p (permissions s) -> In (Permission._id p) permissionIds ->
  hasPermission (OidValid roleId) (Permission.name p) s' = true.
Proof.
  intros Hnd H Hp Hpi.
  unfold addPermissions, catch_map, bind, get_db, ret, throw in H.
  destruct (findRoleById roleId s) as [role|] eqn:Hf; [|discriminate].
  destruct (Role.isSystemRole role); [discriminate|].
  destruct (negb _); [discriminate|].
  match type of H with
  | context [match ?l with [] => _ | _ :: _ => _ end] => destruct l as [|n0 ns] eqn:Hnew
  end; [discriminate|].
  destruct (save_role _ s) as [[e|r'] s''] eqn:Hs; [discriminate|].
  inversion H; subst r' s''. rewrite <- Hnew in Hs.
  apply save_role_inv in Hs as [_ ->].
  assert (Hid : Role._id role = roleId)
    by (apply find_some in Hf as [_ E]; apply Nat.eqb_eq; exact E).
  rewrite (hasPermission_after_save roleId role); [|exact Hf|exact Hid].
  apply existsb_exists. exists p. split; [|apply String.eqb_refl].
  unfold populate_permissions. apply in_flat_map. exists (Permission._id p). split.
  - simpl. apply in_or_app.
    destruct (mem_nat (Permission._id p) (Role.permissions role)) eqn:Hm.
    + left. apply mem_nat_In. exact Hm.
    + right. apply filter_In. rewrite Hm. auto.
  - rewrite (find_id_unique Permission._id _ p Hnd Hp). left. reflexivity.
Qed.


Lemma addPermissions_hasPermission_witness :
  exists r s', addPermissions 2%nat [10%nat] db_perm = (inr r, s') /\
    hasPermission (OidValid 2%nat) "users:read" s' = true.
Proof.
  destruct (addPermissions 2%nat [10%nat] db_perm) as [[e|r] s'] eqn:E.
  - vm_compute in E. discriminate.
  - exists r, s'. split; [reflexivity|].
    exact (addPermissions_hasPermission 2%nat [10%nat] db_perm s' r perm_read
             ltac:(vm_compute; repeat constructor; simpl; intuition discriminate) E
             ltac:(simpl; auto) ltac:(simpl; auto)).
Defined.

(** After [removePermissions roleId permissionIds] succeeds,
    [hasPermission] on that role is false for a name [n] when every
    permission document named [n] had its id among [permissionIds]. *)
Theorem removePermissions_hasPermission (roleId : nat) (permissionIds : list nat) (s s' : db)
    (r : Role.t) (n : string) :
  removePermissions roleId permissionIds s = (inr r, s') ->
  (forall q, In q (permissions s) -> Permission.name q = n -> In (Permission._id q) permissionIds) ->
  hasPermission (OidValid roleId) n s' = false.
Proof.
  intros H Hn.
  unfold removePermissions, catch_map, bind, get_db, ret, throw in H.
  destruct (findRoleById roleId s) as [role|] eqn:Hf; [|discriminate].
  destruct (Role.isSystemRole role); [discriminate|].
  destruct (save_role _ s) as [[e|r'] s''] eqn:Hs; [discriminate|].
  inversion H; subst r' s''.
  apply save_role_inv in Hs as [_ ->].
  assert (Hid : Role._id role = roleId)
    by (apply find_some in Hf as [_ E]; apply Nat.eqb_eq; exact E).
  rewrite (hasPermission_after_save roleId role); [|exact Hf|exact Hid].
  apply not_true_iff_false. intros Hex.
  apply existsb_exists in Hex as (q & Hq & Eq). apply String.eqb_eq in Eq.
  unfold populate_permissions in Hq. apply in_flat_map in Hq as (x & Hx & Hq).
  simpl in Hx. apply filter_In in Hx as [_ Hx]. apply negb_true_iff in Hx.
  destruct (find _ (permissions s)) as [q'|] eqn:Fq; [|contradiction].
  destruct Hq as [<-|[]].
  apply find_some in Fq as [Hin E]. apply Nat.eqb_eq in E.
  specialize (Hn q' Hin Eq). rewrite E in Hn.
  apply mem_nat_In in Hn. congruence.
Qed.


Lemma removePermissions_hasPermission_witness :
  hasPermission (OidValid 2%nat) "users:write" db_perm_rw = true /\
  exists r s', removePermissions 2%nat [11%nat] db_perm_rw = (inr r, s') /\
    hasPermission (OidValid 2%nat) "users:write" s' = false /\
    hasPermission (OidValid 2%nat) "users:read" s' = true.
Proof.
  split; [vm_compute; reflexivity|].
  destruct (removePermissions 2%nat [11%nat] db_perm_rw) as [[e|r] s'] eqn:E.
  - vm_compute in E. discriminate.
  - exists r, s'. split; [reflexivity|]. split.
    + apply (removePermissions_hasPermission 2%nat [11%nat] db_perm_rw s' r "users:write" E).
      intros q Hq Hnq. simpl in Hq.
      destruct Hq as [<-|[<-|[]]]; simpl in *; [discriminate|auto].
    + vm_compute in E. inversion E; subst. vm_compute. reflexivity.
Defined.

Lemma fold_session_hours_open (l : list Attendance.t) (acc : Num.t) :
  (forall a, In a l -> Attendance.checkOut a = None) ->
  fold_left add_session_hours l acc = acc.
Proof.
  revert acc. induction l as [|a l IH]; simpl; intros acc H; [reflexivity|].
  unfold add_session_hours at 2. rewrite (H a (or_introl eq_refl)). auto.
Qed.

Lemma fold_session_hours_pos (l : list Attendance.t) (acc : Num.t) :
  NumFacts.pos_or_zero acc ->
  (forall a co, In a l -> Attendance.checkOut a = Some co ->
                (Attendance.checkIn a <= co)%Z /\
                time_ok (Attendance.checkIn a) = true /\ time_ok co = true) ->
  NumFacts.pos_or_zero (fold_left add_session_hours l acc).
Proof.
  revert acc. induction l as [|a l IH]; simpl; intros acc Hacc H; [exact Hacc|].
  apply IH; [|intros b co Hb; apply H; auto].
  unfold add_session_hours. destruct (Attendance.checkOut a) as [co|] eqn:Hco; [|exact Hacc].
  destruct (H a co (or_introl eq_refl) Hco) as [Hle [Hti Htc]].
  apply NumFacts.add_pos; [exact Hacc|].
  apply NumFacts.hours_between_pos; assumption.
Qed.

(** [getTotalHoursForDay userId date] reads without writing.  It is +0
    when no record of that employee's day has a check-out, and it is never
    negative (a number [>= 0], not NaN) when each checked-out record of the
    day has [checkIn <= checkOut], both the time values of valid Dates. *)
Theorem getTotalHoursForDay_bounds (day_of : Z -> Z) (userId : nat) (date : Z) (s : db) :
  exists h,
    getTotalHoursForDay day_of userId date s = (inr h, s) /\
    ((forall a, In a (attendances s) -> today_filter day_of userId date a = true ->
                Attendance.checkOut a = None) -> h = Num.zero) /\
    ((forall a co, In a (attendances s) -> today_filter day_of userId date a = true ->
                   Attendance.checkOut a = Some co ->
                   (Attendance.checkIn a <= co)%Z /\
                   time_ok (Attendance.checkIn a) = true /\ time_ok co = true) ->
     Num.leb Num.zero h = true).
Proof.
  eexists. split; [reflexivity|].
  set (l := sort_by checkIn_asc (filter (today_filter day_of userId date) (attendances s))).
  assert (Hl : forall a, In a l -> In a (attendances s) /\ today_filter day_of userId date a = true).
  { intros a Ha. apply filter_In.
    exact (Permutation_in _ (Permutation_sym (sort_by_perm checkIn_asc _)) Ha). }
  split.
  - intros H. rewrite fold_session_hours_open.
    + apply NumFacts.round2_zero.
    + intros a Ha. destruct (Hl a Ha). auto.
  - intros H. apply NumFacts.leb_zero_pos, NumFacts.round2_pos.
    apply fold_session_hours_pos; [exact I|].
    intros a co Ha. destruct (Hl a Ha). auto.
Qed.

Lemma checkIn_desc_total (a b : Attendance.t) : checkIn_desc a b = false -> checkIn_desc b a = true.
Proof. unfold checkIn_desc. intros H. apply Z.leb_gt in H. apply Z.leb_le. lia. Qed.

(** [getIncompleteSession userId date] reads without writing.  It
    returns nothing exactly when every record of the employee's day has a
    check-out; otherwise it returns a record of that day without check-out
    whose [checkIn] is the latest among those records. *)
Theorem getIncompleteSession_latest (day_of : Z -> Z) (userId : nat) (date : Z) (s : db) :
  exists o,
    getIncompleteSession day_of userId date s = (inr o, s) /\
    (o = None <-> forall a, In a (attendances s) -> today_filter day_of userId date a = true ->
                            Attendance.checkOut a <> None) /\
    (forall r, o = Some r ->
       In r (attendances s) /\ today_filter day_of userId date r = true /\
       Attendance.checkOut r = None /\
       forall a, In a (attendances s) -> today_filter day_of userId date a = true ->
                 Attendance.checkOut a = None -> (Attendance.checkIn a <= Attendance.checkIn r)%Z).
Proof.
  eexists. split; [reflexivity|].
  set (f := incomplete_filter day_of userId date).
  assert (Hf : forall a, f a = true <->
                 today_filter day_of userId date a = true /\ Attendance.checkOut a = None).
  { intros a. unfold f, incomplete_filter. rewrite andb_true_iff.
    destruct (Attendance.checkOut a); split; intros [H1 H2]; auto; discriminate. }
  pose proof (sort_by_perm checkIn_desc (filter f (attendances s))) as Hp.
  pose proof (sort_by_sorted checkIn_desc checkIn_desc_total (filter f (attendances s))) as Hs.
  apply Sorted_StronglySorted in Hs;
    [|intros x y z; unfold checkIn_desc; rewrite !Z.leb_le; lia].
  destruct (sort_by checkIn_desc (filter f (attendances s))) as [|r l] eqn:E; simpl.
  - split.
    + split; [|reflexivity]. intros _ a Ha Ht Hc. apply Permutation_sym, Permutation_nil in Hp.
      assert (H : In a (filter f (attendances s))) by (apply filter_In; split; [exact Ha|apply Hf; auto]).
      rewrite Hp in H. contradiction.
    + intros r' Hr'. discriminate.
  - split.
    + split; [discriminate|]. intros H.
      assert (Hr : In r (filter f (attendances s))) by (apply (Permutation_in _ (Permutation_sym Hp)); left; auto).
      apply filter_In in Hr as [Hr Hfr]. apply Hf in Hfr as [Ht Hc]. exfalso. exact (H r Hr Ht Hc).
    + intros r' Hr'. inversion Hr'; subst r'.
      assert (Hr : In r (filter f (attendances s))) by (apply (Permutation_in _ (Permutation_sym Hp)); left; auto).
      apply filter_In in Hr as [Hr Hfr]. apply Hf in Hfr as [Ht Hc].
      split; [exact Hr|split; [exact Ht|split; [exact Hc|]]].
      intros a Ha Hta Hca.
      assert (Hin : In a (r :: l)) by (apply (Permutation_in _ Hp); apply filter_In; split; [exact Ha|apply Hf; auto]).
      destruct Hin as [<-|Hin]; [lia|].
      apply StronglySorted_inv in Hs as [_ Hall].
      rewrite Forall_forall in Hall. specialize (Hall a Hin).
      unfold checkIn_desc in Hall. apply Z.leb_le in Hall. exact Hall.
Qed.

(** [updateAttendance id updateData updatedBy].  An id that is not an
    ObjectId fails the cast with a [CastError] (400) whatever the body.  For
    a well-formed id, a body whose [notes] (trimmed) exceed 500 characters,
    whose [totalHours] is not [>= 0] (negative or NaN) or whose [status] is
    not one of the enum values is rejected with a validation error (400)
    before any lookup, even for an unknown id; an otherwise valid body for an unknown id gives 404.
    All of these leave the database unchanged.  On an existing record the
    update replaces exactly that record.  It sets [checkIn] and [checkOut] as
    given, with no check that [checkOut] is after [checkIn], and keeps the
    stored [totalHours] unless the body sets it: nothing recomputes it. *)
Theorem updateAttendance_outcome (id : nat) (p : AttendancePatch.t) (updatedBy : nat) (s : db) :
  (forall v, updateAttendance (OidMalformed v) p updatedBy s = (inl (CastError "Attendance" "_id" v), s)) /\
  ((notes_ok (option_map Js.trim (AttendancePatch.notes p)) = false \/
    totalHours_ok (AttendancePatch.totalHours p) = false \/
    status_ok (AttendancePatch.status p) = false) ->
   exists m, updateAttendance (OidValid id) p updatedBy s = (inl (ValidationError m), s)) /\
  (notes_ok (option_map Js.trim (AttendancePatch.notes p)) = true ->
   totalHours_ok (AttendancePatch.totalHours p) = true ->
   status_ok (AttendancePatch.status p) = true ->
   (find_attendance id s = None ->
    updateAttendance (OidValid id) p updatedBy s = (inl (AppError 404 "Attendance record not found"), s)) /\
   (forall a, find_attendance id s = Some a ->
    exists a',
      updateAttendance (OidValid id) p updatedBy s =
        (inr a', set_attendances s (replace_by Attendance._id id a' (attendances s))) /\
      Attendance._id a' = Attendance._id a /\
      Attendance.checkIn a' = match AttendancePatch.checkIn p with
                              | Some t => t | None => Attendance.checkIn a end /\
      Attendance.checkOut a' = match AttendancePatch.checkOut p with
                               | Some t => Some t | None => Attendance.checkOut a end /\
      Attendance.totalHours a' = match AttendancePatch.totalHours p with
                                 | Some h => Some h | None => Attendance.totalHours a end /\
      Attendance.updatedBy a' = updatedBy)).
Proof.
  unfold updateAttendance, validate_attendance_patch, bind, get_db, put_db, ret, throw.
  split; [reflexivity|]. split.
  - intros [H|[H|H]].
    + rewrite H. simpl. eauto.
    + destruct (notes_ok _); simpl; [rewrite H; simpl|]; eauto.
    + destruct (notes_ok _); simpl; [|eauto].
      destruct (totalHours_ok _); simpl; [rewrite H; simpl|]; eauto.
  - intros Hn Ht Hs. rewrite Hn, Ht, Hs. simpl. split.
    + intros Hf. rewrite Hf. reflexivity.
    + intros a Ha. rewrite Ha. eexists. split; [reflexivity|].
      repeat split; reflexivity.
Qed.

Lemma remove_first_attendance_unique (l : list Attendance.t) (a : Attendance.t) :
  NoDup (map Attendance._id l) -> In a l ->
  remove_first_attendance (Attendance._id a) l =
    filter (fun x => negb (Nat.eqb (Attendance._id x) (Attendance._id a))) l.
Proof.
  induction l as [|b l IH]; simpl; intros Hnd Hin; [contradiction|].
  inversion Hnd as [|? ? Hnot Hnd']; subst.
  destruct (Nat.eqb_spec (Attendance._id b) (Attendance._id a)) as [E|E]; simpl.
  - symmetry. apply filter_all_true. intros x Hx. apply negb_true_iff, Nat.eqb_neq.
    intros E'. apply Hnot. rewrite E, <- E'. apply in_map. exact Hx.
  - f_equal. destruct Hin as [<-|Hin]; [congruence|]. auto.
Qed.

(** [deleteAttendance id] and [getAttendanceById id] fail the cast with a
    [CastError] (400) and write nothing when the id is not an ObjectId.  For
    a well-formed id, [deleteAttendance] answers 404 and writes nothing when
    no record has that id.  Otherwise (ids unique) it removes exactly that
    record, keeping the others in order, and [getAttendanceById] on that id
    then answers 404. *)
Theorem deleteAttendance_then_get (id : nat) (s : db) :
  NoDup (map Attendance._id (attendances s)) ->
  (forall v, deleteAttendance (OidMalformed v) s = (inl (CastError "Attendance" "_id" v), s) /\
             getAttendanceById (OidMalformed v) s = (inl (CastError "Attendance" "_id" v), s)) /\
  (find_attendance id s = None ->
   deleteAttendance (OidValid id) s = (inl (AppError 404 "Attendance record not found"), s)) /\
  (forall a, find_attendance id s = Some a ->
   let s' := set_attendances s (filter (fun x => negb (Nat.eqb (Attendance._id x) id)) (attendances s)) in
   deleteAttendance (OidValid id) s = (inr tt, s') /\
   getAttendanceById (OidValid id) s' = (inl (AppError 404 "Attendance record not found"), s')).
Proof.
  intros Hnd. unfold deleteAttendance, getAttendanceById, bind, get_db, put_db, ret, throw.
  split; [intros v; split; reflexivity|].
  split; [intros Hf; rewrite Hf; reflexivity|].
  intros a Ha. apply find_attendance_some in Ha as H. destruct H as [Hin Hid].
  rewrite Ha. subst id. rewrite (remove_first_attendance_unique _ a Hnd Hin).
  split; [reflexivity|].
  unfold find_attendance. simpl. rewrite find_none_of_all; [reflexivity|].
  intros x Hx. apply filter_In in Hx as [_ Hx]. apply negb_true_iff in Hx. exact Hx.
Qed.

Lemma deleteAttendance_then_get_witness :
  deleteAttendance (OidValid 1) db_open = (inr tt, set_attendances db_open []) /\
  getAttendanceById (OidValid 1) (set_attendances db_open []) =
    (inl (AppError 404 "Attendance record not found"), set_attendances db_open []).
Proof.
  exact (proj2 (proj2 (deleteAttendance_then_get 1 db_open ltac:(vm_compute; repeat constructor; simpl; tauto)))
           open_rec eq_refl).
Defined.


Lemma updateAttendance_outcome_witness :
  exists a',
    updateAttendance (OidValid 1) (move_checkOut (hour 8)) 1 db_closed =
      (inr a', set_attendances db_closed (replace_by Attendance._id 1 a' (attendances db_closed))) /\
    Attendance.checkIn a' = hour 9 /\ Attendance.checkOut a' = Some (hour 8) /\
    Attendance.totalHours a' = Attendance.totalHours closed_rec.
Proof.
  destruct (proj2 (proj2 (proj2 (updateAttendance_outcome 1 (move_checkOut (hour 8)) 1 db_closed))
                     eq_refl eq_refl eq_refl)
              closed_rec eq_refl) as (a' & H & _ & Hci & Hco & Hth & _).
  exists a'. repeat split; assumption.
Defined.

Lemma markAttendance_unknown_employee (day_of midnight : Z -> Z) (d : MarkAttendanceData.t)
    (cb : nat) (s : db) :
  find (fun x => Nat.eqb (User._id x) (MarkAttendanceData.employeeId d)) (users s) = None ->
  markAttendance day_of midnight d cb s = (inl (AppError 404 "Employee not found"), s).
Proof.
  intros Hu. unfold markAttendance, findUserById, bind, get_db, ret, throw.
  cbv beta iota zeta. rewrite Hu. reflexivity.
Qed.

Lemma bulk_loop_all_fail (day_of midnight : Z -> Z) (id_text : nat -> string)
    (recs : list MarkAttendanceData.t) (cb : nat) (results : list Attendance.t)
    (errors : list string) (s : db) :
  (forall d, In d recs ->
     find (fun x => Nat.eqb (User._id x) (MarkAttendanceData.employeeId d)) (users s) = None) ->
  exists more,
    bulk_loop day_of midnight id_text recs cb results errors s = (inr (results, (errors ++ more)%list), s) /\
    length more = length recs.
Proof.
  revert errors. induction recs as [|d recs IH]; simpl; intros errors H.
  - exists []. rewrite app_nil_r. split; reflexivity.
  - unfold bind at 1. unfold try_catch at 1. unfold bind at 1.
    rewrite markAttendance_unknown_employee by auto.
    destruct (IH (errors ++ [("Employee " ++ id_text (MarkAttendanceData.employeeId d) ++ ": " ++
                              error_message (AppError 404 "Employee not found"))%string])%list)
      as (more & Hm & Hl); [intros; apply H; auto|].
    unfold ret. cbn beta iota delta [fst snd]. simpl in Hm |- *. rewrite Hm. eexists. split; [rewrite <- app_assoc; reflexivity|].
    simpl. rewrite Hl. reflexivity.
Qed.

(** [bulkMarkAttendance] on an empty list succeeds with no records and
    writes nothing; on a non-empty list whose every employee id resolves to
    no user it fails with 400 and writes nothing. *)
Theorem bulkMarkAttendance_edges (day_of midnight : Z -> Z) (id_text : nat -> string)
    (cb : nat) (s : db) :
  bulkMarkAttendance day_of midnight id_text [] cb s = (inr [], s) /\
  (forall recs, recs <> [] ->
   (forall d, In d recs ->
      find (fun x => Nat.eqb (User._id x) (MarkAttendanceData.employeeId d)) (users s) = None) ->
   exists m, bulkMarkAttendance day_of midnight id_text recs cb s = (inl (AppError 400 m), s)).
Proof.
  split; [reflexivity|].
  intros recs Hne H. unfold bulkMarkAttendance, bind at 1.
  destruct (bulk_loop_all_fail day_of midnight id_text recs cb [] [] s H) as (more & -> & Hl).
  simpl. destruct more as [|m more]; [destruct recs; [congruence|discriminate]|].
  simpl. eexists. reflexivity.
Qed.

Lemma markCheckOut_totalHours (id : nat) (t : Z) (ub : nat) (n : option string) (s s' : db)
    (r : Attendance.t) :
  markCheckOut id t ub n s = (inr r, s') ->
  exists a,
    find_attendance id s = Some a /\
    Attendance.totalHours r = Some (round2 (hours_between (Attendance.checkIn a) t)).
Proof.
  intros H. unfold markCheckOut, bind, get_db in H.
  destruct (find_attendance id s) as [a|] eqn:Fa; [|discriminate].
  destruct (Attendance.checkOut a); [discriminate|].
  destruct (Z.leb t (Attendance.checkIn a)); [discriminate|].
  unfold save_existing, bind, get_db, put_db, ret, throw in H.
  destruct (validate_attendance _); [discriminate|].
  inversion H; subst. exists a. split; reflexivity.
Qed.

(** The state after a first clock-in of the day, a check-out and a second
    clock-in of the same employee on the same local day: one record was
    appended, it carries the first record's id and check-in, and it is open. *)
Lemma reopen_after_checkout_state (day_of midnight : Z -> Z)
    (s0 : db) (d1 : MarkAttendanceData.t) (cb1 : nat) (r1 : Attendance.t) (s1 : db)
    (t2 : Z) (ub2 : nat) (n2 : option string) (r2 : Attendance.t) (s2 : db)
    (d3 : MarkAttendanceData.t) (cb3 : nat) (r3 : Attendance.t) (s3 : db) :
  find (today_filter day_of (MarkAttendanceData.employeeId d1) (today_key day_of midnight d1))
       (attendances s0) = None ->
  MarkAttendanceData.employeeId d3 = MarkAttendanceData.employeeId d1 ->
  day_of (MarkAttendanceData.checkIn d3) = day_of (MarkAttendanceData.checkIn d1) ->
  markAttendance day_of midnight d1 cb1 s0 = (inr r1, s1) ->
  markCheckOut (Attendance._id r1) t2 ub2 n2 s1 = (inr r2, s2) ->
  markAttendance day_of midnight d3 cb3 s2 = (inr r3, s3) ->
  s3 = set_attendances s0 (attendances s0 ++ [r3])%list /\
  (forall x, In x (attendances s0) -> Attendance._id x <> Attendance._id r1) /\
  Attendance._id r3 = Attendance._id r1 /\
  Attendance.checkIn r3 = MarkAttendanceData.checkIn d1 /\
  Attendance.checkOut r3 = None.
Proof.
  intros Hfirst Hemp Hday H1 H2 H3.
  destruct (markAttendance_new_inv day_of midnight d1 cb1 s0 s1 r1 Hfirst H1)
    as (-> & Hid1 & Hemp1 & Hdate1 & Hci1 & _).
  destruct (markCheckOut_inv _ _ _ _ _ _ r2 H2) as (a2 & Fa2 & -> & Hid2 & Hemp2 & Hdate2 & Hci2).
  assert (Hfresh : forall x, In x (attendances s0) -> Attendance._id x <> Attendance._id r1).
  { intros x Hx E. rewrite Hid1 in E.
    pose proof (fresh_id_gt (map Attendance._id (attendances s0)) (Attendance._id x)
                  (in_map _ _ _ Hx)). lia. }
  assert (Ha2 : a2 = r1).
  { unfold find_attendance in Fa2. simpl in Fa2. rewrite find_app in Fa2.
    rewrite find_none_of_all in Fa2.
    - simpl in Fa2. rewrite Nat.eqb_refl in Fa2. inversion Fa2; auto.
    - intros x Hx. apply Nat.eqb_neq. auto. }
  subst a2.
  (* [r2] is the checked-out record *)
  assert (Hco2 : exists t, Attendance.checkOut r2 = Some t).
  { unfold markCheckOut, bind, get_db in H2.
    rewrite Fa2 in H2.
    destruct (Attendance.checkOut r1); [discriminate|].
    destruct (Z.leb t2 (Attendance.checkIn r1)); [discriminate|].
    unfold save_existing, bind, get_db, put_db, ret, throw in H2.
    destruct (validate_attendance _); [discriminate|].
    inversion H2; subst. simpl. eauto. }
  simpl in H3. rewrite replace_by_app_absent in H3 by exact Hfresh.
  assert (Hkey : today_key day_of midnight d3 = today_key day_of midnight d1)
    by (unfold today_key; rewrite Hday; reflexivity).
  assert (Fe : find (today_filter day_of (MarkAttendanceData.employeeId d3) (today_key day_of midnight d3))
                    (attendances s0 ++ [r2])%list = Some r2).
  { rewrite Hemp, Hkey, find_app, Hfirst. simpl.
    unfold today_filter. rewrite Hemp2, Hemp1, Nat.eqb_refl, Hdate2, Hdate1, Z.eqb_refl. reflexivity. }
  destruct (markAttendance_existing_inv day_of midnight d3 cb3
              (set_attendances s0 (attendances s0 ++ [r2])%list) s3 r3 r2 Fe H3) as (a3 & Fa3 & Hr3 & Hs3).
  unfold find_attendance in Fa3. simpl in Fa3. rewrite find_app in Fa3.
  rewrite find_none_of_all in Fa3.
  2:{ intros x Hx. apply Nat.eqb_neq. rewrite Hid2. auto. }
  simpl in Fa3. rewrite Nat.eqb_refl in Fa3. inversion Fa3; subst a3.
  destruct Hco2 as [t Hco2].
  assert (Hid3 : Attendance._id r3 = Attendance._id r1) by (rewrite Hr3; simpl; congruence).
  subst s3. simpl. rewrite replace_by_app_absent.
  2:{ rewrite Hid2. exact Hfresh. }
  repeat split; auto.
  - rewrite Hr3; simpl; congruence.
  - rewrite Hr3; simpl. rewrite Hco2. reflexivity.
Qed.

(** [markCheckOut] after a same-day re-clock-in counts from the day's first
    check-in: the session hours it stores are the rounded hours from the
    first clock-in of the day to the final check-out, the break between the
    first check-out and the second clock-in included. *)
Theorem markCheckOut_after_reopen_counts_break (day_of midnight : Z -> Z)
    (s0 : db) (d1 : MarkAttendanceData.t) (cb1 : nat) (r1 : Attendance.t) (s1 : db)
    (t2 : Z) (ub2 : nat) (n2 : option string) (r2 : Attendance.t) (s2 : db)
    (d3 : MarkAttendanceData.t) (cb3 : nat) (r3 : Attendance.t) (s3 : db)
    (t4 : Z) (ub4 : nat) (n4 : option string) (r4 : Attendance.t) (s4 : db) :
  find (today_filter day_of (MarkAttendanceData.employeeId d1) (today_key day_of midnight d1))
       (attendances s0) = None ->
  MarkAttendanceData.employeeId d3 = MarkAttendanceData.employeeId d1 ->
  day_of (MarkAttendanceData.checkIn d3) = day_of (MarkAttendanceData.checkIn d1) ->
  markAttendance day_of midnight d1 cb1 s0 = (inr r1, s1) ->
  markCheckOut (Attendance._id r1) t2 ub2 n2 s1 = (inr r2, s2) ->
  markAttendance day_of midnight d3 cb3 s2 = (inr r3, s3) ->
  markCheckOut (Attendance._id r1) t4 ub4 n4 s3 = (inr r4, s4) ->
  Attendance._id r4 = Attendance._id r1 /\
  Attendance.totalHours r4 = Some (round2 (hours_between (MarkAttendanceData.checkIn d1) t4)).
Proof.
  intros Hfirst Hemp Hday H1 H2 H3 H4.
  destruct (reopen_after_checkout_state day_of midnight s0 d1 cb1 r1 s1 t2 ub2 n2 r2 s2 d3 cb3 r3 s3
              Hfirst Hemp Hday H1 H2 H3) as (-> & Hfresh & Hid3 & Hci3 & _).
  destruct (markCheckOut_inv _ _ _ _ _ _ r4 H4) as (_ & _ & _ & Hid4 & _).
  destruct (markCheckOut_totalHours _ _ _ _ _ _ r4 H4) as (a & Fa & Ht).
  unfold find_attendance in Fa. simpl in Fa. rewrite find_app in Fa.
  rewrite find_none_of_all in Fa.
  2:{ intros x Hx. apply Nat.eqb_neq. auto. }
  simpl in Fa. rewrite Hid3, Nat.eqb_refl in Fa. inversion Fa; subst a.
  split; [exact Hid4|]. rewrite Ht, Hci3. reflexivity.
Qed.


Lemma markCheckOut_after_reopen_counts_break_witness :
  Attendance.totalHours (result_or open_rec day1_final) = Some (round2 (hours_between (hour 9) (hour 17))) /\
  round2 (hours_between (hour 9) (hour 17)) = Num.of_Z 8.
Proof.
  split; [|vm_compute; reflexivity].
  assert (E1 : day1_in = (inr (result_or open_rec day1_in), snd day1_in)) by (vm_compute; reflexivity).
  assert (E2 : day1_out = (inr (result_or open_rec day1_out), snd day1_out)) by (vm_compute; reflexivity).
  assert (E3 : day1_back = (inr (result_or open_rec day1_back), snd day1_back)) by (vm_compute; reflexivity).
  assert (E4 : day1_final = (inr (result_or open_rec day1_final), snd day1_final)) by (vm_compute; reflexivity).
  exact (proj2 (markCheckOut_after_reopen_counts_break utc_day_of utc_midnight
              db_people (clock_in 1 (hour 9) None) 1%nat (result_or open_rec day1_in) (snd day1_in)
              (hour 13) 1%nat None (result_or open_rec day1_out) (snd day1_out)
              (clock_in 1 (hour 14) None) 1%nat (result_or open_rec day1_back) (snd day1_back)
              (hour 17) 1%nat None (result_or open_rec day1_final) (snd day1_final)
              ltac:(vm_compute; reflexivity) eq_refl ltac:(vm_compute; reflexivity) E1 E2 E3 E4)).
Defined.
